(** * uploadcare-python: the upload client and its secure-upload signature

    A shallow embedding of [uploadcare/uploadcare.py] and
    [uploadcare/exceptions.py], and the properties of the signing, request
    building, response validation and status polling code.

    Conventions of the embedding.
    - A Python [str] is the [string] of its UTF-8 code units, as string
      literals of this file are; [s.encode('utf-8')] is then the list of
      those bytes.  Text holding lone surrogates has no UTF-8 form and is
      outside the model.
    - A Python [bytes] is a [list byte].
    - A Python [int] is a [Z]; a finite [float] is the rational it denotes
      (a [Q]); infinities and NaN are outside the model.  On finite floats
      the sign of a difference is the sign of the exact difference, and
      [int(x)] is exact, so the tests of the code read the same on [Q].
      An [int] that meets a float in arithmetic is made a float first
      ([float_of_int]): rounded to the nearest double when it has more
      than 53 bits, and refused with [OverflowError] past the largest one.
    - A [dict] with text keys is a [gmap string _].
    - The platform (file system, clock, date parser, MIME table) is an
      [Env] record; the HTTP transport is a script of replies consumed one
      per request, with the requests and the sleeps logged in a trace.

    Embedded: [generate_secure_signature], [_secure_expire_signature],
    [_check_response], [_input_identity], [check_status], [upload], [info],
    [start_multipart], [complete_multipart], [create_group] and
    [group_info], with [hashlib.sha256] and [hmac] under them.
    [upload_parts] is not: it has no [self] parameter and names [self]. *)

From Stdlib Require Import ZArith QArith Qround String Ascii Strings.Byte List Lia.
From Stdlib Require Import DecimalPos DecimalZ DecimalString Lqa.
From stdpp Require Import gmap strings list fin_maps.
Import ListNotations.

#[local] Set Warnings "-register-all".
#[local] Open Scope Z_scope.
#[local] Open Scope string_scope.

(** ** hashlib.sha256 (FIPS 180-4) *)

Module Sha256.

(** 32-bit words are integers in [0, 2^32); every operation wraps. *)
Definition wrap32 (x : Z) : Z := x mod 2 ^ 32.
Definition add32 (x y : Z) : Z := wrap32 (x + y).
Definition not32 (x : Z) : Z := Z.lxor x 0xFFFFFFFF.
Definition rotr (n x : Z) : Z :=
  Z.lor (Z.shiftr x n) (wrap32 (Z.shiftl x (32 - n))).

Definition Ch (x y z : Z) : Z := Z.lxor (Z.land x y) (Z.land (not32 x) z).
Definition Maj (x y z : Z) : Z :=
  Z.lxor (Z.lxor (Z.land x y) (Z.land x z)) (Z.land y z).
Definition bsig0 (x : Z) : Z := Z.lxor (Z.lxor (rotr 2 x) (rotr 13 x)) (rotr 22 x).
Definition bsig1 (x : Z) : Z := Z.lxor (Z.lxor (rotr 6 x) (rotr 11 x)) (rotr 25 x).
Definition ssig0 (x : Z) : Z := Z.lxor (Z.lxor (rotr 7 x) (rotr 18 x)) (Z.shiftr x 3).
Definition ssig1 (x : Z) : Z := Z.lxor (Z.lxor (rotr 17 x) (rotr 19 x)) (Z.shiftr x 10).

(** The largest [r] in [[lo, hi)] with [r ^ 3 <= n], by bisection. *)
Fixpoint cube_root_between (fuel : nat) (n lo hi : Z) : Z :=
  match fuel with
  | O => lo
  | S fuel' =>
      let mid := (lo + hi) / 2 in
      if Z.leb (mid ^ 3) n
      then cube_root_between fuel' n mid hi
      else cube_root_between fuel' n lo mid
  end.

Definition is_prime (n : Z) : bool :=
  List.forallb (fun d => negb (Z.eqb (n mod Z.of_nat d) 0)) (List.seq 2 (Z.to_nat n - 2)).

Definition primes : list Z :=
  List.filter is_prime (List.map Z.of_nat (List.seq 2 400)).

(** The round constants: the first 32 bits of the fractional parts of the
    cube roots of the first 64 primes. *)
Definition K : list Z :=
  Eval vm_compute in
    List.map (fun p => wrap32 (cube_root_between 48 (p * 2 ^ 96) 0 (2 ^ 36)))
             (List.firstn 64 primes).

(** The eight working words. *)
Record state := State { ha : Z; hb : Z; hc : Z; hd : Z; he : Z; hf : Z; hg : Z; hh : Z }.

(** The initial hash value: the first 32 bits of the fractional parts of the
    square roots of the first 8 primes. *)
Definition initial_words : list Z :=
  Eval vm_compute in
    List.map (fun p => wrap32 (Z.sqrt (p * 2 ^ 64))) (List.firstn 8 primes).

Definition init : state :=
  match initial_words with
  | [a; b; c; d; e; f; g; h] => State a b c d e f g h
  | _ => State 0 0 0 0 0 0 0 0
  end.

Definition byte_to_Z (b : byte) : Z := Z.of_N (Byte.to_N b).
Definition byte_of_Z (z : Z) : byte :=
  match Byte.of_N (Z.to_N (z mod 256)) with Some b => b | None => x00 end.

(** Big-endian words of a block. *)
Fixpoint words_of (bs : list Z) : list Z :=
  match bs with
  | b0 :: b1 :: b2 :: b3 :: rest =>
      (((b0 * 256 + b1) * 256 + b2) * 256 + b3) :: words_of rest
  | _ => []
  end.

(** The message schedule: [n] more words after the sixteen of the block. *)
Fixpoint schedule (n : nat) (ws : list Z) : list Z :=
  match n with
  | O => ws
  | S n' =>
      let t := List.length ws in
      let at_ (k : nat) := List.nth (t - k) ws 0 in
      schedule n'
        (ws ++ [add32 (add32 (ssig1 (at_ 2%nat)) (at_ 7%nat))
                      (add32 (ssig0 (at_ 15%nat)) (at_ 16%nat))])
  end.

Definition round (s : state) (kw : Z * Z) : state :=
  let '(k, w) := kw in
  let t1 := add32 (add32 (add32 (hh s) (bsig1 (he s)))
                         (add32 (Ch (he s) (hf s) (hg s)) k)) w in
  let t2 := add32 (bsig0 (ha s)) (Maj (ha s) (hb s) (hc s)) in
  State (add32 t1 t2) (ha s) (hb s) (hc s) (add32 (hd s) t1) (he s) (hf s) (hg s).

Definition compress (s : state) (block : list Z) : state :=
  let w := schedule 48 (words_of block) in
  let r := List.fold_left round (List.combine K w) s in
  State (add32 (ha s) (ha r)) (add32 (hb s) (hb r))
        (add32 (hc s) (hc r)) (add32 (hd s) (hd r))
        (add32 (he s) (he r)) (add32 (hf s) (hf r))
        (add32 (hg s) (hg r)) (add32 (hh s) (hh r)).

(** Absorbs the bytes 64 at a time; [buf] holds the bytes of the block
    being filled, [room] how many it still lacks. *)
Fixpoint absorb (s : state) (buf : list Z) (room : nat) (bs : list Z) : state :=
  match bs with
  | [] => s
  | b :: rest =>
      match room with
      | 1%nat => absorb (compress s (buf ++ [b])) [] 64%nat rest
      | _ => absorb s (buf ++ [b]) (Nat.pred room) rest
      end
  end.

Definition be_bytes (n : nat) (x : Z) : list Z :=
  List.map (fun i => (x / 256 ^ Z.of_nat i) mod 256) (List.rev (List.seq 0 n)).

(** Padding: the bit 1, zeros up to 56 modulo 64, the bit length on 8 bytes. *)
Definition pad (msg : list Z) : list Z :=
  let len := Z.of_nat (List.length msg) in
  msg ++ [0x80] ++ List.repeat 0 (Z.to_nat ((55 - len) mod 64))
      ++ be_bytes 8 (8 * len).

Definition word_bytes (x : Z) : list byte := List.map byte_of_Z (be_bytes 4 x).

Definition digest_of (s : state) : list byte :=
  word_bytes (ha s) ++ word_bytes (hb s) ++ word_bytes (hc s) ++ word_bytes (hd s)
  ++ word_bytes (he s) ++ word_bytes (hf s) ++ word_bytes (hg s) ++ word_bytes (hh s).

Definition digest (msg : list byte) : list byte :=
  digest_of (absorb init [] 64%nat (pad (List.map byte_to_Z msg))).

Definition block_size : nat := 64.
Definition digest_size : nat := 32.

End Sha256.

(** ** hmac.new(key, msg, hashlib.sha256) (RFC 2104) and [hexdigest] *)

Module Hmac.

Definition xor_byte (c : Z) (b : byte) : byte :=
  Sha256.byte_of_Z (Z.lxor (Sha256.byte_to_Z b) c).

(** A key longer than a block is hashed first; the key is then filled with
    zero bytes up to the block size. *)
Definition block_key (key : list byte) : list byte :=
  let k := if (Sha256.block_size <? List.length key)%nat then Sha256.digest key else key in
  k ++ List.repeat x00 (Sha256.block_size - List.length k).

Definition digest (key msg : list byte) : list byte :=
  let k := block_key key in
  Sha256.digest (List.map (xor_byte 0x5c) k
                 ++ Sha256.digest (List.map (xor_byte 0x36) k ++ msg)).

Definition hex_digit (n : N) : ascii :=
  default "0"%char (String.get (N.to_nat n) "0123456789abcdef").

Definition hex_of_byte (b : byte) : list ascii :=
  let n := Byte.to_N b in [hex_digit (n / 16)%N; hex_digit (n mod 16)%N].

Definition hex (bs : list byte) : string :=
  string_of_list_ascii (List.flat_map hex_of_byte bs).

Definition hexdigest (key msg : list byte) : string := hex (digest key msg).

Definition is_lower_hex (c : ascii) : bool :=
  existsb (Ascii.eqb c) (list_ascii_of_string "0123456789abcdef").

End Hmac.

(** ** Values and exceptions *)

Inductive pyval :=
| PNone
| PBool (b : bool)
| PInt (z : Z)
| PFloat (q : Q)
| PStr (s : string)
| PBytes (bs : list byte)
| PList (l : list pyval)
| PDict (d : gmap string pyval).

(** The exceptions of [exceptions.py] and the built-in ones the code meets. *)
Inductive exn :=
| InvalidDatetimeString (arg : pyval)
| MissingExpireKwarg
| MissingSecretKey
| ValueError (msg : string)
| ConnectionError (msg : string)
| NameError (name : string)
| KeyError (key : string)
| TypeError
| AttributeError
| JSONDecodeError
| IsADirectoryError
| FileNotFoundError
| OverflowError.

(** The messages [exceptions.py] attaches in [__init__]. *)
Definition exn_message (e : exn) : option string :=
  match e with
  | MissingExpireKwarg =>
      Some ("When using Secure Uploading, you must pass keyword argument: "
            ++ "`expire` (expire: Union[float, int, str]).")
  | MissingSecretKey =>
      Some ("A secret key is required for Secure Uploads! Pass "
            ++ "`secret_key=...` to the class object.")
  | ValueError msg | ConnectionError msg => Some msg
  | _ => None
  end.

(** What a call comes to: a value, an exception, or [Starved] when the
    scripted transport has no further reply to give (the call is still
    waiting for the network). *)
Inductive outcome (A : Type) :=
| Return (a : A)
| Raise (e : exn)
| Starved.
Arguments Return {A} a.
Arguments Raise {A} e.
Arguments Starved {A}.

#[global] Instance outcome_ret : MRet outcome := @Return.
#[global] Instance outcome_bind : MBind outcome := fun A B f o =>
  match o with
  | Return a => f a
  | Raise e => Raise e
  | Starved => Starved
  end.

(** [bool(v)]. *)
Definition py_truthy (v : pyval) : bool :=
  match v with
  | PNone => false
  | PBool b => b
  | PInt z => negb (Z.eqb z 0)
  | PFloat q => negb (Qeq_bool q 0)
  | PStr s => negb (String.eqb s "")
  | PBytes bs => negb (Nat.eqb (List.length bs) 0)
  | PList l => negb (Nat.eqb (List.length l) 0)
  | PDict d => negb (Nat.eqb (size d) 0)
  end.

(** [str(n)] for an [int]. *)
Definition str_int (n : Z) : string := NilZero.string_of_int (Z.to_int n).

(** [s.encode('utf-8')]. *)
Definition encode_utf8 (s : string) : list byte := list_byte_of_string s.

(** [int(x)] for a float: towards zero. *)
Definition int_of_float (q : Q) : Z := Z.quot (Qnum q) (Zpos (Qden q)).

(** A double has [DBL_MANT_DIG] significant bits and lies below
    [2 ^ DBL_MAX_EXP] in magnitude. *)
Definition DBL_MANT_DIG : Z := 53.
Definition DBL_MAX_EXP : Z := 1024.

(** The double nearest to a natural number [n], as a number: [n] itself
    when it has no more than 53 bits; else its 53 leading bits [q], one
    added when the [e] bits [r] cut off are more than half a unit of [q],
    or are half a unit and [q] is odd. *)
Definition nearest_double (n : Z) : Z :=
  if Z.leb n (2 ^ DBL_MANT_DIG)%Z then n
  else
    let e := Z.log2 n - (DBL_MANT_DIG - 1) in
    let q := Z.shiftr n e in
    let r := Z.land n (Z.ones e) in
    let half := (2 ^ (e - 1))%Z in
    let up := Z.ltb half r || (Z.eqb r half && Z.odd q) in
    Z.shiftl (if up then q + 1 else q) e.

(** [float(n)] for an [int], which is what [n - x] and [n + x] make of [n]
    when [x] is a float: the nearest double, or [None] where that is past
    the largest one and Python raises [OverflowError]. *)
Definition float_of_int (n : Z) : option Q :=
  let m := nearest_double (Z.abs n) in
  if Z.leb (2 ^ DBL_MAX_EXP)%Z m then None
  else Some (inject_Z (Z.sgn n * m)).

(** [needle in hay] for two [str]. *)
Fixpoint contains (needle hay : string) : bool :=
  String.prefix needle hay
  || match hay with
     | EmptyString => false
     | String _ rest => contains needle rest
     end.

(** [v == s] for a [str] literal [s]. *)
Definition py_eq_str (v : pyval) (s : string) : bool :=
  match v with
  | PStr s' => String.eqb s' s
  | _ => false
  end.

(** [v[key]] for a [str] key. *)
Definition py_getitem (v : pyval) (key : string) : outcome pyval :=
  match v with
  | PDict d =>
      match d !! key with
      | Some x => Return x
      | None => Raise (KeyError key)
      end
  | _ => Raise TypeError
  end.

(** [v.get(key)]. *)
Definition py_get (v : pyval) (key : string) : outcome pyval :=
  match v with
  | PDict d => Return (default PNone (d !! key))
  | _ => Raise AttributeError
  end.

(** [d.update(e)]: the entries of [e] replace those of [d]. *)
Definition dict_update (d e : gmap string pyval) : gmap string pyval := e ∪ d.

(** ** The platform *)

(** What [dateparser.parse] returns: a local date and time.  [dt_seconds]
    is what [time.mktime] makes of its [timetuple()], which has no
    microsecond field: a float that is a whole number of seconds.  A date
    that [time.mktime] does not take on the platform is outside the model. *)
Record datetime := Datetime { dt_seconds : Z; dt_microsecond : Z }.

Definition mktime_timetuple (d : datetime) : Q := inject_Z (dt_seconds d).

(** What [Path(path)] finds: a file, with the bytes [open(path, 'rb')]
    reads from it, or a directory.  A file name with a slash after it,
    which [Path] finds and [open] does not, is neither and is outside the
    model. *)
Inductive fs_node :=
| File (content : list byte)
| Directory.

Record Env := {
  fs : string -> option fs_node;               (* what Path(path) names, if anything *)
  time_time : Q;                               (* time.time() *)
  dateparser_parse : string -> option datetime;
  guess_type : string -> option string;        (* mimetypes.guess_type(_)[0] *)
  py_repr : pyval -> string                    (* str() of floats, bytes, lists, dicts *)
}.

(** What an f-string makes of a value. *)
Definition py_format (env : Env) (v : pyval) : string :=
  match v with
  | PNone => "None"
  | PBool true => "True"
  | PBool false => "False"
  | PInt z => str_int z
  | PStr s => s
  | _ => py_repr env v
  end.

(** [open(path, 'rb').read()] on a POSIX system, where [fs] tells what
    [Path(path)] names.  [Path('')] is the current directory, a directory,
    and [open('')] finds no file of that name. *)
Definition open_rb (env : Env) (path : string) : outcome (list byte) :=
  match fs env path with
  | Some (File content) => Return content
  | Some Directory =>
      if String.eqb path "" then Raise FileNotFoundError
      else Raise IsADirectoryError
  | None => Raise FileNotFoundError
  end.

(** [Path(p).name] on a POSIX system: the last component, the empty ones
    and the [.] ones set aside. *)
Fixpoint path_parts (cur : string) (p : string) : list string :=
  match p with
  | EmptyString => [cur]
  | String c rest =>
      if Ascii.eqb c "/"%char then cur :: path_parts "" rest
      else path_parts (cur ++ String c "") rest
  end.

Definition path_name (p : string) : string :=
  List.last
    (List.filter (fun part => negb (String.eqb part "" || String.eqb part "."))
                 (path_parts "" p))
    "".

(** ** Name resolution

    A name that is free in the body of a method is looked up in the globals
    of the module, then in the built-ins.  The names bound in the body of
    [class UploadCare] are attributes of the class: its methods do not see
    them as free names. *)

(** Bound at the top level of [uploadcare.py] (lines 4 to 20). *)
Definition module_globals : list string :=
  [ "hashlib"; "hmac"; "json"; "mimetypes"; "time"; "Path"; "Optional";
    "Union"; "dateparser"; "requests"; "CaseInsensitiveDict";
    "InvalidDatetimeString"; "MissingExpireKwarg"; "MissingSecretKey";
    "UploadCare" ].

(** Bound in the body of [class UploadCare] (lines 29 to 340). *)
Definition class_attributes : list string :=
  [ "__init__"; "generate_secure_signature"; "_secure_expire_signature";
    "_check_response"; "_input_identity"; "check_status"; "upload"; "info";
    "start_multipart"; "upload_parts"; "complete_multipart"; "create_group";
    "group_info" ].

(** The built-ins the module names. *)
Definition builtins : list string :=
  [ "isinstance"; "float"; "int"; "str"; "bytes"; "bytearray"; "tuple";
    "dict"; "list"; "bool"; "open"; "enumerate"; "ValueError"; "TypeError";
    "ConnectionError"; "True"; "False"; "None" ].

(** Whether a free name resolves, the module's globals being [globals]. *)
Definition free_name_bound (globals : list string) (name : string) : bool :=
  existsb (String.eqb name) globals || existsb (String.eqb name) builtins.

(** ** class UploadCare *)

Record UploadCare := {
  pub_key : string;
  secret_key : pyval;      (* [PNone] when no secret key is given *)
  api_url : string
}.

(** Lines 45-67. *)
Definition generate_secure_signature (secret_key : pyval) (expire : Z)
  : outcome string :=
  let m := encode_utf8 (str_int expire) in
  k ← match secret_key with
      | PBytes bs => Return bs
      | PStr s => Return (encode_utf8 s)
      | _ => Raise AttributeError
      end;
  Return (Hmac.hexdigest k m).

(** [isinstance(expire, (float, int, str))]; a [bool] is an [int]. *)
Inductive float_int_str :=
| IsFloat (q : Q)
| IsInt (z : Z)
| IsStr (s : string).

Definition as_float_int_str (v : pyval) : option float_int_str :=
  match v with
  | PFloat q => Some (IsFloat q)
  | PInt z => Some (IsInt z)
  | PBool b => Some (IsInt (Z.b2z b))
  | PStr s => Some (IsStr s)
  | _ => None
  end.

(** Lines 79-84 of [_secure_expire_signature]: the instant the argument
    stands for, in seconds since the epoch, as the float that line 84
    takes [time.time()] from.  A float is that float; text is what
    [dateparser] and [time.mktime] make of it; an [int] is turned into a
    float by the subtraction, which rounds it or raises [OverflowError]. *)
Definition expire_instant (env : Env) (expire : float_int_str) : outcome Q :=
  match expire with
  | IsFloat q => Return q
  | IsInt z =>
      match float_of_int z with
      | Some f => Return f
      | None => Raise OverflowError
      end
  | IsStr s =>
      match dateparser_parse env s with
      | None => Raise (InvalidDatetimeString PNone)
      | Some d => Return (mktime_timetuple d)
      end
  end.

(** Line 87, [int(expire)]: an [int] is returned as it is; a float, the
    one given or the one [time.mktime] gave, is cut towards zero. *)
Definition whole_seconds (expire : float_int_str) (t : Q) : Z :=
  match expire with
  | IsInt z => z
  | IsFloat _ | IsStr _ => int_of_float t
  end.

(** Lines 79-87: the instant, refused when [expire - time.time() < 0], then
    the whole seconds of [expire]. *)
Definition expire_seconds (env : Env) (expire : float_int_str) : outcome Z :=
  t ← expire_instant env expire;
  if negb (Qle_bool 0 (t - time_time env))
  then Raise (ValueError "Expire timestamp cannot be in the past!")
  else Return (whole_seconds expire t).

(** Lines 69-89, in a module whose globals are [globals].  Line 88 calls
    [generate_secure_signature] as a free name. *)
Definition secure_expire_signature_in (globals : list string)
    (self : UploadCare) (env : Env) (expire : pyval)
  : outcome (gmap string pyval) :=
  match as_float_int_str expire with
  | None =>
      Raise (ValueError
               ("`expire` value must be a float or a string representing date "
                ++ "and/or time in a recognizably valid format."))
  | Some x =>
      if negb (py_truthy (secret_key self)) then Raise MissingSecretKey
      else
        expire ← expire_seconds env x;
        signature ←
          (if free_name_bound globals "generate_secure_signature"
           then generate_secure_signature (secret_key self) expire
           else Raise (NameError "generate_secure_signature"));
        Return (<["signature" := PStr signature]> {["expire" := PInt expire]})
  end.

(** The method as [uploadcare.py] defines it. *)
Definition _secure_expire_signature : UploadCare -> Env -> pyval -> outcome (gmap string pyval) :=
  secure_expire_signature_in module_globals.

(** ** The transport *)

Record Response := {
  status_code : Z;
  text : string;
  json : option pyval        (* [resp.json()]; [None] when the body is not JSON *)
}.

Record Request := {
  req_method : string;
  req_url : string;
  req_data : gmap string pyval;
  req_files : option (string * list byte * option string)
}.

Inductive event :=
| Sent (r : Request)
| Slept (seconds : Q).

Record World := {
  replies : list Response;   (* the replies the server will give, in order *)
  trace : list event         (* what the client has done so far *)
}.

Definition M (A : Type) : Type := World -> outcome A * World.

Definition raise {A} (e : exn) : M A := fun w => (Raise e, w).
Definition lift {A} (o : outcome A) : M A := fun w => (o, w).

#[global] Instance M_ret : MRet M := fun A a w => (Return a, w).
#[global] Instance M_bind : MBind M := fun A B k m w =>
  match m w with
  | (Return a, w') => k a w'
  | (Raise e, w') => (Raise e, w')
  | (Starved, w') => (Starved, w')
  end.

(** [requests.post(url, data=data, files=files)]: the request goes out and
    the next reply of the script, if there is one, comes back. *)
Definition requests_post (url : string) (data : gmap string pyval)
    (files : option (string * list byte * option string)) : M Response :=
  fun w =>
    let w' r := {| replies := r;
                   trace := trace w ++ [Sent (Build_Request "POST" url data files)] |} in
    match replies w with
    | [] => (Starved, w' [])
    | res :: rest => (Return res, w' rest)
    end.

(** [time.sleep(seconds)]. *)
Definition time_sleep (seconds : Q) : M unit :=
  fun w => (Return tt, {| replies := replies w; trace := trace w ++ [Slept seconds] |}).

(** Lines 91-97. *)
Definition _check_response (self : UploadCare) (resp : Response) : outcome pyval :=
  if negb (Z.eqb (status_code resp) 200) then
    if contains "`signature` is required" (text resp)
       && negb (py_truthy (secret_key self))
    then Raise MissingSecretKey
    else Raise (ConnectionError (text resp))
  else
    match json resp with
    | Some payload => Return payload
    | None => Raise JSONDecodeError
    end.

(** Lines 99-109. *)
Definition _input_identity (self : UploadCare) (env : Env) (_input : string)
  : outcome (bool * string) :=
  match fs env _input with
  | Some _ => Return (false, api_url self ++ "/base/")
  | None =>
      if negb (String.prefix "http" _input)
      then Raise (ValueError "Input is neither an existing file or a valid URL!")
      else Return (true, api_url self ++ "/from_url/")
  end.

(** Lines 126-133 of [check_status]: one turn of the loop for each reply.
    The recursion is on the replies still to come. *)
Fixpoint check_status_poll (status_endpoint : string) (token : pyval)
    (rs : list Response) (tr : list event) : outcome Response * World :=
  let request :=
    Sent (Build_Request "POST" status_endpoint {["token" := token]} None) in
  match rs with
  | [] => (Starved, {| replies := []; trace := tr ++ [request] |})
  | status_res :: rest =>
      let w := {| replies := rest; trace := tr ++ [request] |} in
      match json status_res with
      | None => (Raise JSONDecodeError, w)
      | Some payload =>
          match py_getitem payload "status" with
          | Return status =>
              if py_eq_str status "success" then (Return status_res, w)
              else if py_eq_str status "error" || py_eq_str status "unknown"
              then (Raise (ConnectionError (text status_res)), w)
              else check_status_poll status_endpoint token rest
                     (trace w ++ [Slept (1 # 2)])
          | Raise e => (Raise e, w)
          | Starved => (Starved, w)
          end
      end
  end.

(** Lines 111-136. *)
Definition check_status (self : UploadCare) (token : pyval) : M (pyval * pyval) :=
  let status_endpoint := api_url self ++ "/from_url/status/" in
  status_res ← (fun w => check_status_poll status_endpoint token (replies w) (trace w));
  wait_res ← lift (match json status_res with
                   | Some payload => Return payload
                   | None => Raise JSONDecodeError
                   end);
  filename ← lift (py_getitem wait_res "filename");
  uuid ← lift (py_getitem wait_res "uuid");
  mret (filename, uuid).

(** [store] is an [int] or a [str]. *)
Inductive int_or_str :=
| AnInt (z : Z)
| AStr (s : string).

Definition str_of (v : int_or_str) : string :=
  match v with
  | AnInt z => str_int z
  | AStr s => s
  end.

(** The field names the code builds with f-strings. *)
Definition metadata_field (k : string) : string := "metadata[" ++ k ++ "]".
Definition files_field (n : nat) : string := "files[" ++ str_int (Z.of_nat n) ++ "]".

(** Lines 181-183 of [upload]. *)
Definition add_metadata (metadata : option (gmap string pyval))
    (data : gmap string pyval) : gmap string pyval :=
  match metadata with
  | Some m =>
      if negb (Nat.eqb (size m) 0)
      then map_fold (fun k v data => dict_update data {[metadata_field k := v]}) data m
      else data
  | None => data
  end.

(** [if expire: data.update(self._secure_expire_signature(expire))]. *)
Definition add_signature (self : UploadCare) (env : Env) (expire : pyval)
    (data : gmap string pyval) : outcome (gmap string pyval) :=
  if py_truthy expire
  then params ← _secure_expire_signature self env expire;
       Return (dict_update data params)
  else Return data.

(** Lines 174-183 of [upload]: the fields before the secure parameters. *)
Definition upload_fields (self : UploadCare) (_input : string) (is_url : bool)
    (store : int_or_str) (metadata : option (gmap string pyval))
    (kwargs : gmap string pyval) : gmap string pyval :=
  let pub_k := if is_url then "pub_key" else "UPLOADCARE_PUB_KEY" in
  let data :=
    dict_update (<["UPLOADCARE_STORE" := PStr (str_of store)]>
                   ({[pub_k := PStr (pub_key self)]} : gmap string pyval))
                kwargs in
  let data :=
    if is_url then dict_update data {["source_url" := PStr _input]} else data in
  add_metadata metadata data.

(** Lines 199-205 of [upload]: the name and the uuid the reply gives. *)
Definition upload_outcome (self : UploadCare) (is_url : bool) (fname : string)
    (res_json : pyval) : M (pyval * pyval) :=
  if negb is_url then
    _uuid ← lift (py_getitem res_json "file");
    mret (PStr fname, _uuid)
  else
    t ← lift (py_get res_json "token");
    if py_truthy t then
      token ← lift (py_getitem res_json "token");
      check_status self token
    else
      filename ← lift (py_getitem res_json "filename");
      uuid ← lift (py_getitem res_json "uuid");
      mret (filename, uuid).

(** Line 207. *)
Definition cdn_url (env : Env) (_uuid fname : pyval) : string :=
  "https://ucarecdn.com/" ++ py_format env _uuid ++ "/" ++ py_format env fname.

(** Lines 138-207. *)
Definition upload (self : UploadCare) (env : Env) (_input : string)
    (store : int_or_str) (metadata : option (gmap string pyval))
    (expire : pyval) (kwargs : gmap string pyval) : M string :=
  if py_truthy (secret_key self) && negb (py_truthy expire)
  then raise MissingExpireKwarg
  else
    let fname := path_name _input in
    '(is_url, endpoint) ← lift (_input_identity self env _input);
    fdata ← (if negb is_url then lift (open_rb env _input) else mret []);
    let data := upload_fields self _input is_url store metadata kwargs in
    data ← lift (add_signature self env expire data);
    let content_type := guess_type env fname in
    res ← (if (is_url : bool) then requests_post endpoint data None
           else requests_post endpoint data (Some (fname, fdata, content_type)));
    res_json ← lift (_check_response self res);
    '(fname, _uuid) ← upload_outcome self is_url fname res_json;
    mret (cdn_url env _uuid fname).

(** Lines 234-274. *)
Definition start_multipart (self : UploadCare) (env : Env) (filename : string)
    (size : Z) (expire : pyval) (kwargs : gmap string pyval) : M pyval :=
  if py_truthy (secret_key self) && negb (py_truthy expire)
  then raise MissingExpireKwarg
  else
    let endpoint := api_url self ++ "/multipart/start/" in
    let data :=
      dict_update (<["size" := PInt size]>
                     (<["filename" := PStr filename]>
                        ({["UPLOADCARE_PUB_KEY" := PStr (pub_key self)]}
                         : gmap string pyval)))
                  kwargs in
    data ← lift (add_signature self env expire data);
    res ← requests_post endpoint data None;
    lift (_check_response self res).

(** Lines 331-332 of [create_group]. *)
Fixpoint add_files (n : nat) (files : list pyval) (data : gmap string pyval)
  : gmap string pyval :=
  match files with
  | [] => data
  | file :: rest => add_files (S n) rest (dict_update data {[files_field n := file]})
  end.

(** Lines 330-332 of [create_group]: the fields before the secure
    parameters. *)
Definition create_group_fields (self : UploadCare) (files : list pyval)
    (kwargs : gmap string pyval) : gmap string pyval :=
  let data := dict_update {["pub_key" := PStr (pub_key self)]} kwargs in
  add_files 0 files data.

(** Lines 306-338. *)
Definition create_group (self : UploadCare) (env : Env) (files : list pyval)
    (expire : pyval) (kwargs : gmap string pyval) : M pyval :=
  if py_truthy (secret_key self) && negb (py_truthy expire)
  then raise MissingExpireKwarg
  else
    let endpoint := api_url self ++ "/group/" in
    let data := create_group_fields self files kwargs in
    data ← lift (add_signature self env expire data);
    res ← requests_post endpoint data None;
    lift (_check_response self res).

(** ** The fields written after the extra ones *)

(** The names [upload] writes after it has merged [kwargs]. *)
Definition upload_rewrites (env : Env) (_input : string)
    (metadata : option (gmap string pyval)) (expire : pyval) (k : string) : Prop :=
  (fs env _input = None /\ k = "source_url")
  \/ (exists m j, metadata = Some m /\ is_Some (m !! j) /\ k = metadata_field j)
  \/ (py_truthy expire = true /\ (k = "expire" \/ k = "signature")).

(** The names [create_group] writes after it has merged [kwargs]. *)
Definition create_group_rewrites (files : list pyval) (expire : pyval)
    (k : string) : Prop :=
  (exists n, (n < List.length files)%nat /\ k = files_field n)
  \/ (py_truthy expire = true /\ (k = "expire" \/ k = "signature")).

(** [m], run in [w], sends [req] first. *)
Definition sends_first {A} (m : M A) (w : World) (req : Request) : Prop :=
  exists more, trace (snd (m w)) = (trace w ++ Sent req :: more)%list.

(** The names of the fixed fields of an upload: the public key, under the
    name either endpoint gives it, and the store flag. *)
Definition reserved_upload_field (k : string) : Prop :=
  k = "pub_key" \/ k = "UPLOADCARE_PUB_KEY" \/ k = "UPLOADCARE_STORE".

(** A computation only ever adds to the trace. *)
Definition grows {A} (m : M A) : Prop :=
  forall w, exists ext, trace (snd (m w)) = (trace w ++ ext)%list.

(** ** Reading a poll *)

(** The [status] field of a reply to a poll, when it has one. *)
Definition status_of (r : Response) : option pyval :=
  match json r with
  | Some (PDict d) => d !! "status"
  | _ => None
  end.

(** A reply that settles nothing: it has a status, and the status is none of
    [success], [error], [unknown]. *)
Definition keeps_polling (r : Response) : bool :=
  match status_of r with
  | Some status =>
      negb (py_eq_str status "success" || py_eq_str status "error"
            || py_eq_str status "unknown")
  | None => false
  end.

(** The request of line 127. *)
Definition poll_request (self : UploadCare) (token : pyval) : Request :=
  Build_Request "POST" (api_url self ++ "/from_url/status/") {["token" := token]} None.

(** What [n] polls that settle nothing leave in the trace: each request is
    followed by the sleep of line 133. *)
Fixpoint fruitless_polls (n : nat) (request : Request) : list event :=
  match n with
  | O => []
  | S n' => Sent request :: Slept (1 # 2) :: fruitless_polls n' request
  end.

(** The requests of a trace. *)
Definition requests_sent (tr : list event) : list Request :=
  omap (fun e => match e with Sent r => Some r | Slept _ => None end) tr.

(** ** The operations that take no [expire] *)

(** [requests.get(url, params=params)]: the request goes out and the next
    reply of the script comes back, as for [requests_post].  The [req_data]
    of a [GET] holds its query parameters. *)
Definition requests_get (url : string) (params : gmap string pyval) : M Response :=
  fun w =>
    let w' r := {| replies := r;
                   trace := trace w ++ [Sent (Build_Request "GET" url params None)] |} in
    match replies w with
    | [] => (Starved, w' [])
    | res :: rest => (Return res, w' rest)
    end.

(** Lines 292-304. *)
Definition complete_multipart (self : UploadCare) (uuid : pyval) : M pyval :=
  let endpoint := api_url self ++ "/multipart/complete/" in
  let data : gmap string pyval :=
    <["uuid" := uuid]> {["UPLOADCARE_PUB_KEY" := PStr (pub_key self)]} in
  res ← requests_post endpoint data None;
  lift (_check_response self res).

(** Lines 340-351. *)
Definition group_info (self : UploadCare) (group_id : string) : M pyval :=
  let endpoint := api_url self ++ "/group/info/" in
  let params : gmap string pyval :=
    <["group_id" := PStr group_id]> {["pub_key" := PStr (pub_key self)]} in
  res ← requests_get endpoint params;
  lift (_check_response self res).

(** [Path(p).parts] for a path that does not start with a slash: the
    components, the empty ones and the [.] ones set aside. *)
Definition relative_parts (p : string) : list string :=
  List.filter (fun part => negb (String.eqb part "" || String.eqb part "."))
              (path_parts "" p).

(** Lines 221-224 of [info]: the file id.  [None] stands for the
    [IndexError] of [parts[-2]] on a path of fewer than two parts. *)
Definition info_file_id (_input : string) : option string :=
  if String.prefix "http" _input
  then List.nth_error (List.rev (relative_parts _input)) 1
  else Some _input.

(** Lines 219 and 225-232 of [info], the file id in hand.  [json_dumps] is
    [json.dumps(_, indent=4)]. *)
Definition info_lookup (self : UploadCare) (json_dumps : pyval -> string)
    (_uuid : string) (pretty : bool) : M pyval :=
  let endpoint := api_url self ++ "/info/" in
  let params : gmap string pyval :=
    <["pub_key" := PStr (pub_key self)]> {["file_id" := PStr _uuid]} in
  res ← requests_get endpoint params;
  res_json ← lift (_check_response self res);
  if pretty then mret (PStr (json_dumps res_json)) else mret res_json.

(** Lines 209-232; [None] is the [IndexError] of line 222, raised before
    any request. *)
Definition info (self : UploadCare) (json_dumps : pyval -> string)
    (_input : string) (pretty : bool) : option (M pyval) :=
  match info_file_id _input with
  | Some _uuid => Some (info_lookup self json_dumps _uuid pretty)
  | None => None
  end.

(** A text without a slash: a single component of a path. *)
Definition has_no_slash (s : string) : bool :=
  List.forallb (fun c => negb (Ascii.eqb c "/")) (list_ascii_of_string s).

(** ** Sample inputs *)

Definition sample_env : Env := {|
  fs := fun path =>
    if String.eqb path "photo.jpg" then Some (File [xff; xd8; xff; xe0]) else None;
  time_time := 1700000000 # 1;
  dateparser_parse := fun s =>
    if String.eqb s "tomorrow" then Some (Datetime 1700086400 250000) else None;
  guess_type := fun name => if String.eqb name "photo.jpg" then Some "image/jpeg" else None;
  py_repr := fun _ => "<object>"
|}.

Definition sample_client : UploadCare :=
  {| pub_key := "demopublickey"; secret_key := PNone;
     api_url := "https://upload.uploadcare.com" |}.

Definition sample_signing_client : UploadCare :=
  {| pub_key := "demopublickey"; secret_key := PStr "project_secret_key";
     api_url := "https://upload.uploadcare.com" |}.

Definition sample_reply (code : Z) (body : string) (payload : gmap string pyval)
  : Response :=
  {| status_code := code; text := body; json := Some (PDict payload) |}.

Definition sample_world (rs : list Response) : World :=
  {| replies := rs; trace := [] |}.

(** Replies to a poll: one that is still pending, and the final one. *)
Definition sample_pending : Response :=
  sample_reply 200 "{'status': 'pending'}" {["status" := PStr "pending"]}.

Definition sample_success : Response :=
  sample_reply 200 "{'status': 'success', 'filename': 'a.png', 'uuid': 'U1'}"
    (<["uuid" := PStr "U1"]>
       (<["filename" := PStr "a.png"]> {["status" := PStr "success"]})).

Definition sample_error : Response :=
  sample_reply 200 "{'status': 'error', 'error': 'no such host'}"
    {["status" := PStr "error"]}.

(** The upload of [photo.jpg] by a client without a secret key, with the
    extra fields [kwargs], and the request it sends. *)
Definition sample_upload (kwargs : gmap string pyval) : M string :=
  upload sample_client sample_env "photo.jpg" (AStr "auto") None PNone kwargs.

Definition sample_upload_request (kwargs : gmap string pyval) : Request :=
  Build_Request "POST" "https://upload.uploadcare.com/base/"
    (upload_fields sample_client "photo.jpg" false (AStr "auto") None kwargs)
    (Some ("photo.jpg", [xff; xd8; xff; xe0], Some "image/jpeg")).

Definition sample_file_reply : Response :=
  sample_reply 200 "{'file': 'UUID123'}" {["file" := PStr "UUID123"]}.

(** ** More sample inputs *)

Definition sample_url : string := "http://example.com/pic.png".

(** [sample_env] with a directory [photos] beside [photo.jpg], in the
    current directory, which is what [Path('')] names. *)
Definition sample_env_with_directory : Env := {|
  fs := fun path =>
    if String.eqb path "photos" || String.eqb path "" then Some Directory
    else fs sample_env path;
  time_time := time_time sample_env;
  dateparser_parse := dateparser_parse sample_env;
  guess_type := guess_type sample_env;
  py_repr := py_repr sample_env
|}.

(** [sample_env] at another time of day. *)
Definition sample_env_at (now : Q) : Env := {|
  fs := fs sample_env;
  time_time := now;
  dateparser_parse := dateparser_parse sample_env;
  guess_type := guess_type sample_env;
  py_repr := py_repr sample_env
|}.

Definition sample_metadata : gmap string pyval := {["subsystem" := PStr "uploader"]}.

(** The upload of [sample_url] by a client without a secret key, and the
    request it sends. *)
Definition sample_url_upload (metadata : option (gmap string pyval))
    (kwargs : gmap string pyval) : M string :=
  upload sample_client sample_env sample_url (AStr "auto") metadata PNone kwargs.

Definition sample_url_request (metadata : option (gmap string pyval))
    (kwargs : gmap string pyval) : Request :=
  Build_Request "POST" "https://upload.uploadcare.com/from_url/"
    (upload_fields sample_client sample_url true (AStr "auto") metadata kwargs) None.

(** Replies to the upload of a URL: the file fetched at once, and a token
    to poll with. *)
Definition sample_fetched_reply : Response :=
  sample_reply 200 "{'type': 'file_info', 'filename': 'pic.png', 'uuid': 'UUID456'}"
    (<["uuid" := PStr "UUID456"]>
       (<["filename" := PStr "pic.png"]> {["type" := PStr "file_info"]})).

Definition sample_token_reply : Response :=
  sample_reply 200 "{'type': 'token', 'token': 'T1'}"
    (<["token" := PStr "T1"]> {["type" := PStr "token"]}).

Definition sample_poll_success : Response :=
  sample_reply 200 "{'status': 'success', 'filename': 'pic.png', 'uuid': 'UUID456'}"
    (<["uuid" := PStr "UUID456"]>
       (<["filename" := PStr "pic.png"]> {["status" := PStr "success"]})).

Definition sample_refusal : Response :=
  {| status_code := 403; text := "pub_key is invalid."; json := None |}.

Definition sample_json_dumps (v : pyval) : string :=
  match v with
  | PDict _ => "{...}"
  | _ => "null"
  end.

(** * Properties *)

(** ** The digest and its hexadecimal form *)

(** The digests below are those [hashlib] and [hmac] give. *)
Example sha256_constants :
  (List.nth 0 Sha256.K 0, List.nth 63 Sha256.K 0, List.length Sha256.K)
  = (0x428a2f98, 0xc67178f2, 64%nat)
  /\ Sha256.init
     = Sha256.State 0x6a09e667 0xbb67ae85 0x3c6ef372 0xa54ff53a
                    0x510e527f 0x9b05688c 0x1f83d9ab 0x5be0cd19.
Proof. split; reflexivity. Qed.

Example sha256_abc :
  Hmac.hex (Sha256.digest (list_byte_of_string "abc"))
  = "ba7816bf8f01cfea414140de5dae2223b00361a396177a9cb410ff61f20015ad".
Proof. vm_compute. reflexivity. Qed.

Example sha256_empty :
  Hmac.hex (Sha256.digest [])
  = "e3b0c44298fc1c149afbf4c8996fb92427ae41e4649b934ca495991b7852b855".
Proof. vm_compute. reflexivity. Qed.

Example sha256_four_blocks :
  Hmac.hex (Sha256.digest (List.repeat x61 200))
  = "c2a908d98f5df987ade41b5fce213067efbcc21ef2240212a41e54b5e7c28ae5".
Proof. vm_compute. reflexivity. Qed.

(** RFC 4231, test case 2. *)
Example hmac_rfc4231_2 :
  Hmac.hexdigest (list_byte_of_string "Jefe")
                 (list_byte_of_string "what do ya want for nothing?")
  = "5bdcc146bf60754e6a042426089575c75a003f089d2739839dec58b964ec3843".
Proof. vm_compute. reflexivity. Qed.

Example hmac_long_key :
  Hmac.hexdigest (List.repeat x6b 131) (list_byte_of_string "1700000000")
  = "669599941bcfc10d1bfa16d0bbaa2e9747d833476ff97a21f89cb0ed7a63e276".
Proof. vm_compute. reflexivity. Qed.

(** Signatures as Python's [hmac] computes them: a text key, a text key
    outside ASCII with a negative [expire], and the empty bytes key. *)
Example signature_text_key :
  generate_secure_signature (PStr "project_secret_key") 1454903856
  = Return "d39a461d41f607338abffee5f31da4d4e46535651c87346e76906bf75c064d47".
Proof. vm_compute. reflexivity. Qed.

Example signature_accented_key :
  generate_secure_signature (PStr "clé") (-5)
  = Return "e760ef0d1457c6713433f9fc68595946ef8599c478571369a5208e660be80c93".
Proof. vm_compute. reflexivity. Qed.

Example signature_empty_bytes_key :
  generate_secure_signature (PBytes []) 0
  = Return "9979e4c3ee19965f9ecc6dca6b3954b10c18c1bfa105c512cc3ae58be85db71c".
Proof. vm_compute. reflexivity. Qed.

(** A key that is neither text nor bytes has no [encode]. *)
Example signature_key_of_another_type :
  generate_secure_signature (PInt 42) 1454903856 = Raise AttributeError.
Proof. reflexivity. Qed.

Lemma sha256_digest_length (msg : list byte) :
  List.length (Sha256.digest msg) = Sha256.digest_size.
Proof.
  unfold Sha256.digest, Sha256.digest_of, Sha256.word_bytes, Sha256.be_bytes.
  rewrite !length_app, !length_map. reflexivity.
Qed.

Lemma hmac_digest_length (key msg : list byte) :
  List.length (Hmac.digest key msg) = 32%nat.
Proof. unfold Hmac.digest. apply sha256_digest_length. Qed.

Lemma string_of_list_ascii_length (l : list ascii) :
  String.length (string_of_list_ascii l) = List.length l.
Proof. induction l as [|c l IH]; simpl; congruence. Qed.

Lemma hex_length (bs : list byte) :
  String.length (Hmac.hex bs) = (2 * List.length bs)%nat.
Proof.
  unfold Hmac.hex. rewrite string_of_list_ascii_length.
  induction bs as [|b bs IH]; simpl in *; lia.
Qed.

Lemma hex_of_byte_lower (b : byte) :
  forallb Hmac.is_lower_hex (Hmac.hex_of_byte b) = true.
Proof. destruct b; reflexivity. Qed.

Lemma hex_lower (bs : list byte) :
  forallb Hmac.is_lower_hex (list_ascii_of_string (Hmac.hex bs)) = true.
Proof.
  unfold Hmac.hex. rewrite list_ascii_of_string_of_list_ascii.
  induction bs as [|b bs IH]; [reflexivity|].
  cbn [flat_map]. rewrite forallb_app, IH, hex_of_byte_lower. reflexivity.
Qed.

Lemma hex_length_64 (key msg : list byte) :
  String.length (Hmac.hex (Hmac.digest key msg)) = 64%nat.
Proof. rewrite hex_length, hmac_digest_length. reflexivity. Qed.

(** [str_int] is the decimal numeral: read back, it is the integer. *)
Lemma str_int_decimal (n : Z) :
  option_map Z.of_int (NilZero.int_of_string (str_int n)) = Some n.
Proof.
  unfold str_int. rewrite NilZero.isi.
  - simpl. f_equal. apply DecimalZ.of_to.
  - destruct n; simpl; try discriminate.
    intros [= H]. now apply DecimalPos.Unsigned.to_uint_nonnil in H.
  - destruct n; simpl; try discriminate.
    intros [= H]. now apply DecimalPos.Unsigned.to_uint_nonnil in H.
Qed.

(** C9. For a secret key given as text or as bytes and every integer
    [expire], [generate_secure_signature] returns the hexadecimal form of the
    HMAC-SHA256 of the decimal numeral of [expire], keyed by the UTF-8 bytes
    of the key (the bytes themselves when given as bytes); that string has 64
    characters, all of them lowercase hexadecimal digits, and equal inputs
    give equal strings. *)
Theorem generate_secure_signature_hmac_sha256_hex (expire : Z) :
  let m := encode_utf8 (str_int expire) in
  (forall k : string,
      let signature := Hmac.hex (Hmac.digest (encode_utf8 k) m) in
      generate_secure_signature (PStr k) expire = Return signature
      /\ String.length signature = 64%nat
      /\ forallb Hmac.is_lower_hex (list_ascii_of_string signature) = true)
  /\ (forall k : list byte,
      let signature := Hmac.hex (Hmac.digest k m) in
      generate_secure_signature (PBytes k) expire = Return signature
      /\ String.length signature = 64%nat
      /\ forallb Hmac.is_lower_hex (list_ascii_of_string signature) = true)
  /\ (forall (k k' : pyval) (expire' : Z),
      (k, expire) = (k', expire') ->
      generate_secure_signature k expire = generate_secure_signature k' expire').
Proof.
  intros m. split; [|split].
  - intros k signature. split; [reflexivity|].
    split; [apply hex_length_64 | apply hex_lower].
  - intros k signature. split; [reflexivity|].
    split; [apply hex_length_64 | apply hex_lower].
  - intros k k' expire' [= -> ->]. reflexivity.
Qed.

(** ** Response validation *)

(** C5. [_check_response] returns a payload exactly when the status code is
    200 (OK), and the payload is then the parsed body as it is; with any
    other status code it raises [MissingSecretKey] or [ConnectionError],
    never returning a payload. *)
Theorem check_response_success_iff_ok (self : UploadCare) (resp : Response) :
  (forall payload : pyval,
      _check_response self resp = Return payload
      <-> status_code resp = 200 /\ json resp = Some payload)
  /\ (status_code resp <> 200 ->
      _check_response self resp = Raise MissingSecretKey
      \/ _check_response self resp = Raise (ConnectionError (text resp))).
Proof.
  unfold _check_response. split.
  - intros payload. destruct (Z.eqb_spec (status_code resp) 200) as [E|E]; simpl.
    + destruct (json resp) as [p|]; split.
      * intros [= ->]. auto.
      * intros [_ [= ->]]. reflexivity.
      * discriminate.
      * intros [_ [=]].
    + split.
      * destruct (_ && _); discriminate.
      * intros [E' _]. contradiction.
  - intros E. destruct (Z.eqb_spec (status_code resp) 200) as [E'|_]; [contradiction|].
    simpl. destruct (_ && _); auto.
Qed.

(** C6. For a response whose status is not 200 and whose body holds the
    marker [`signature` is required]: a client with no secret key gets
    [MissingSecretKey], a client with one gets [ConnectionError] carrying
    the body. *)
Theorem check_response_signature_required (self : UploadCare) (resp : Response) :
  status_code resp <> 200 ->
  contains "`signature` is required" (text resp) = true ->
  _check_response self resp
  = if py_truthy (secret_key self)
    then Raise (ConnectionError (text resp))
    else Raise MissingSecretKey.
Proof.
  intros E Hmark. unfold _check_response.
  destruct (Z.eqb_spec (status_code resp) 200) as [E'|_]; [contradiction|].
  simpl. rewrite Hmark. destruct (py_truthy (secret_key self)); reflexivity.
Qed.

Lemma check_response_signature_required_witness :
  let resp := sample_reply 400 "{'detail': '`signature` is required.'}" ∅ in
  _check_response sample_client resp = Raise MissingSecretKey
  /\ _check_response sample_signing_client resp = Raise (ConnectionError (text resp)).
Proof.
  split.
  - apply (check_response_signature_required sample_client); [discriminate | reflexivity].
  - apply (check_response_signature_required sample_signing_client);
      [discriminate | reflexivity].
Defined.

(** ** From an [int] to a float *)

(** The shape of a natural number of more than 53 bits: 53 leading bits
    [q] and [e] further bits [r]. *)
Lemma nearest_double_cut (n : Z) :
  2 ^ 53 < n ->
  exists e q r : Z,
    1 <= e /\ Z.log2 n = e + 52
    /\ n = q * 2 ^ e + r /\ 0 <= r < 2 ^ e
    /\ 2 ^ 52 <= q < 2 ^ 53
    /\ nearest_double n
       = (if Z.ltb (2 ^ (e - 1)) r || (Z.eqb r (2 ^ (e - 1)) && Z.odd q)
          then q + 1 else q) * 2 ^ e.
Proof.
  intros Hn.
  assert (Hpos : 0 < n) by lia.
  pose proof (Z.log2_spec n Hpos) as [Hlo Hhi].
  assert (HL : 53 <= Z.log2 n).
  { apply Z.log2_le_pow2; lia. }
  set (e := Z.log2 n - 52).
  assert (He : 1 <= e) by (unfold e; lia).
  assert (H2e : 0 < 2 ^ e) by (apply Z.pow_pos_nonneg; lia).
  exists e, (n / 2 ^ e), (n mod 2 ^ e).
  assert (Hsplit : 2 ^ Z.log2 n = 2 ^ 52 * 2 ^ e).
  { rewrite <- Z.pow_add_r by lia. f_equal. unfold e. lia. }
  assert (Hsplit' : 2 ^ Z.succ (Z.log2 n) = 2 ^ 53 * 2 ^ e).
  { rewrite <- Z.pow_add_r by lia. f_equal. unfold e. lia. }
  split; [exact He|]. split; [unfold e; lia|].
  split; [rewrite Z.mul_comm; apply Z.div_mod; lia|].
  split; [apply Z.mod_pos_bound; lia|].
  split.
  - split.
    + apply Z.div_le_lower_bound; lia.
    + apply Z.div_lt_upper_bound; lia.
  - unfold nearest_double, DBL_MANT_DIG.
    destruct (Z.leb_spec n (2 ^ 53)) as [Hle|_]; [lia|].
    cbv zeta. change (53 - 1) with 52. fold e.
    rewrite Z.shiftr_div_pow2 by lia.
    rewrite Z.land_ones by lia.
    rewrite Z.shiftl_mul_pow2 by lia.
    reflexivity.
Qed.

(** Up to [2 ^ 53] every natural number is a double. *)
Lemma nearest_double_small (n : Z) : n <= 2 ^ 53 -> nearest_double n = n.
Proof.
  intros H. unfold nearest_double, DBL_MANT_DIG.
  destruct (Z.leb_spec n (2 ^ 53)); [reflexivity | lia].
Qed.

(** Rounding moves a number by no more than its [2 ^ 53]th part. *)
Lemma nearest_double_close (n : Z) :
  0 <= n -> Z.abs (nearest_double n - n) * 2 ^ 53 <= n.
Proof.
  intros Hn. destruct (Z.le_gt_cases n (2 ^ 53)) as [Hs|Hb].
  - rewrite nearest_double_small by exact Hs.
    replace (n - n) with 0 by lia. simpl. lia.
  - destruct (nearest_double_cut n Hb)
      as (e & q & r & He & _ & Hnq & Hr & Hq & ->).
    assert (Hh : 2 ^ e = 2 * 2 ^ (e - 1)).
    { rewrite <- Z.pow_succ_r by lia. f_equal. lia. }
    assert (Hhpos : 0 < 2 ^ (e - 1)) by (apply Z.pow_pos_nonneg; lia).
    set (h := 2 ^ (e - 1)) in *. rewrite Hh in *.
    set (c := 2 ^ 53) in *. set (c' := 2 ^ 52) in *.
    assert (Hc : c = 2 * c') by reflexivity.
    destruct (Z.ltb_spec h r) as [Hlt|Hge]; cbn [orb].
    + nia.
    + destruct (Z.eqb_spec r h) as [Heq|Hne]; cbn [andb].
      * destruct (Z.odd q); nia.
      * nia.
Qed.

(** The natural numbers whose nearest double would be [2 ^ 1024]: those
    from halfway between the largest double and [2 ^ 1024] on. *)
Lemma nearest_double_overflows (n : Z) :
  0 <= n ->
  2 ^ 1024 <= nearest_double n <-> 2 ^ 1024 - 2 ^ 970 <= n.
Proof.
  intros Hn. destruct (Z.le_gt_cases n (2 ^ 53)) as [Hs|Hb].
  - rewrite nearest_double_small by exact Hs.
    assert (2 ^ 53 < 2 ^ 1024 - 2 ^ 970) by reflexivity.
    assert (2 ^ 53 < 2 ^ 1024) by reflexivity. lia.
  - destruct (nearest_double_cut n Hb)
      as (e & q & r & He & HL & Hnq & Hr & Hq & ->).
    assert (H2e : 0 < 2 ^ e) by (apply Z.pow_pos_nonneg; lia).
    destruct (Z.lt_trichotomy e 971) as [Hlt|[Heq|Hgt]].
    + (* fewer than 1024 bits *)
      assert (Hpe : 2 ^ e <= 2 ^ 970) by (apply Z.pow_le_mono_r; lia).
      assert (Hc : 2 ^ 1024 = 2 ^ 54 * 2 ^ 970) by reflexivity.
      set (a := 2 ^ 970) in *. set (b := 2 ^ e) in *.
      set (c := 2 ^ 53) in *. set (c' := 2 ^ 52) in *.
      assert (Hcc : 2 ^ 54 = 2 * c) by reflexivity. rewrite Hc, Hcc.
      assert (Hc2 : c = 2 * c') by reflexivity.
      assert (Hc'pos : 0 < c') by reflexivity.
      split; intros H; exfalso.
      * destruct (_ || _); nia.
      * nia.
    + (* 1024 bits *)
      subst e.
      assert (Hh : 2 ^ 971 = 2 * 2 ^ 970) by reflexivity.
      assert (Hc : 2 ^ 1024 = 2 ^ 53 * (2 * 2 ^ 970)) by reflexivity.
      change (971 - 1) with 970 in *.
      rewrite Hh in *. rewrite Hc.
      assert (Hapos : 0 < 2 ^ 970) by reflexivity.
      set (a := 2 ^ 970) in *.
      assert (Hodd : Z.odd (2 ^ 53 - 1) = true) by reflexivity.
      set (c := 2 ^ 53) in *. set (c' := 2 ^ 52) in *.
      assert (Hc2 : c = 2 * c') by reflexivity.
      destruct (Z.ltb_spec a r) as [Hlt|Hge]; cbn [orb].
      * split; intros H; nia.
      * destruct (Z.eqb_spec r a) as [Heq|Hne]; cbn [andb].
        -- destruct (Z.eq_dec q (c - 1)) as [->|Hq'].
           ++ rewrite Hodd. split; intros H; nia.
           ++ destruct (Z.odd q); split; intros H; nia.
        -- split; intros H; nia.
    + (* more than 1024 bits *)
      assert (Hpe : 2 ^ 972 <= 2 ^ e) by (apply Z.pow_le_mono_r; lia).
      assert (Hc : 2 ^ 1024 = 2 ^ 52 * 2 ^ 972) by reflexivity.
      assert (Hd : 0 < 2 ^ 970) by reflexivity.
      assert (Ha : 0 < 2 ^ 972) by reflexivity.
      rewrite Hc.
      set (d := 2 ^ 970) in *.
      set (a := 2 ^ 972) in *. set (b := 2 ^ e) in *.
      set (c := 2 ^ 53) in *. set (c' := 2 ^ 52) in *.
      assert (Hc'pos : 0 < c') by reflexivity.
      split; intros _.
      * nia.
      * destruct (_ || _); nia.
Qed.

(** [float(n)] is [n] for an [int] of magnitude up to [2 ^ 53]. *)
Lemma float_of_int_small (n : Z) :
  Z.abs n <= 2 ^ 53 -> float_of_int n = Some (inject_Z n).
Proof.
  intros H. unfold float_of_int. cbv zeta.
  rewrite (nearest_double_small _ H).
  assert (Hlt : Z.abs n < 2 ^ DBL_MAX_EXP).
  { assert (2 ^ 53 < 2 ^ DBL_MAX_EXP) by reflexivity. lia. }
  destruct (Z.leb_spec (2 ^ DBL_MAX_EXP) (Z.abs n)) as [Hge|_]; [lia|].
  rewrite Z.mul_comm, Z.abs_sgn. reflexivity.
Qed.

(** [float(n)] raises [OverflowError] from magnitude [2 ^ 1024 - 2 ^ 970]
    on, and nowhere else. *)
Lemma float_of_int_overflows (n : Z) :
  float_of_int n = None <-> 2 ^ 1024 - 2 ^ 970 <= Z.abs n.
Proof.
  rewrite <- (nearest_double_overflows (Z.abs n) (Z.abs_nonneg n)).
  unfold float_of_int. cbv zeta. change DBL_MAX_EXP with 1024.
  destruct (Z.leb_spec (2 ^ 1024) (nearest_double (Z.abs n))) as [Hge|Hlt].
  - tauto.
  - split; [discriminate | lia].
Qed.

(** [float(n)] is a whole number within the [2 ^ 53]th part of [n]. *)
Lemma float_of_int_close (n : Z) (f : Q) :
  float_of_int n = Some f ->
  exists m : Z, f = inject_Z m /\ Z.abs (m - n) * 2 ^ 53 <= Z.abs n.
Proof.
  unfold float_of_int. cbv zeta.
  destruct (Z.leb _ _); [discriminate|]. intros [= <-].
  exists (Z.sgn n * nearest_double (Z.abs n)). split; [reflexivity|].
  pose proof (nearest_double_close (Z.abs n) (Z.abs_nonneg n)) as Hc.
  destruct (Z.abs_spec n) as [[Hn Ha]|[Hn Ha]].
  - destruct (Z.eq_dec n 0) as [->|Hnz].
    + rewrite Z.sgn_0. simpl. lia.
    + rewrite Z.sgn_pos by lia. rewrite Ha in *.
      replace (1 * nearest_double n - n) with (nearest_double n - n) by lia.
      exact Hc.
  - rewrite Z.sgn_neg by lia. rewrite Ha in *.
    replace (-1 * nearest_double (- n) - n) with (- (nearest_double (- n) - - n)) by lia.
    rewrite Z.abs_opp. exact Hc.
Qed.

(** [float] on some [int]s about [2 ^ 53], where every second one is a
    double, then every fourth, and about the largest double. *)
Example float_of_int_examples :
  float_of_int 1700000000 = Some (1700000000 # 1)
  /\ float_of_int (- (2 ^ 53)) = Some (inject_Z (- (2 ^ 53)))
  /\ float_of_int (2 ^ 53 + 1) = Some (inject_Z (2 ^ 53))
  /\ float_of_int (2 ^ 53 + 3) = Some (inject_Z (2 ^ 53 + 4))
  /\ float_of_int (2 ^ 54 + 2) = Some (inject_Z (2 ^ 54))
  /\ float_of_int (2 ^ 54 + 3) = Some (inject_Z (2 ^ 54 + 4))
  /\ float_of_int (2 ^ 54 + 6) = Some (inject_Z (2 ^ 54 + 8))
  /\ float_of_int (- (2 ^ 53 + 3)) = Some (inject_Z (- (2 ^ 53 + 4)))
  /\ float_of_int (10 ^ 22 + 1) = Some (inject_Z (10 ^ 22))
  /\ float_of_int (2 ^ 1024 - 2 ^ 970 - 1) = Some (inject_Z (2 ^ 1024 - 2 ^ 971))
  /\ float_of_int (2 ^ 1024 - 2 ^ 970) = None
  /\ float_of_int (10 ^ 400) = None
  /\ float_of_int (- 10 ^ 400) = None.
Proof. vm_compute. repeat split. Qed.

(** ** Expiry resolution and the secure parameters *)

(** [int_of_float] cuts a non-negative instant down to its whole seconds. *)
Lemma int_of_float_floor (t : Q) :
  (0 <= t)%Q ->
  (inject_Z (int_of_float t) <= t)%Q /\ (t < inject_Z (int_of_float t + 1))%Q.
Proof.
  destruct t as [n d]. unfold int_of_float, Qle, Qlt, inject_Z. simpl.
  intros Hn. assert (Hn' : 0 <= n) by lia.
  rewrite Z.quot_div_nonneg by lia.
  pose proof (Z.div_mod n (Z.pos d) ltac:(lia)) as Hdm.
  pose proof (Z.mod_pos_bound n (Z.pos d) ltac:(lia)) as Hb.
  split; nia.
Qed.

Lemma int_of_float_inject_Z (z : Z) : int_of_float (inject_Z z) = z.
Proof. unfold int_of_float, inject_Z. simpl. apply Z.quot_1_r. Qed.

Lemma not_Qle_bool_iff (x : Q) : negb (Qle_bool 0 x) = true <-> (x < 0)%Q.
Proof.
  rewrite negb_true_iff. split.
  - intros H. apply Qnot_le_lt. intros Hle. apply Qle_bool_iff in Hle. congruence.
  - intros H. destruct (Qle_bool 0 x) eqn:E; [|reflexivity].
    apply Qle_bool_iff in E. exfalso. exact (Qlt_not_le _ _ H E).
Qed.

(** The test of line 84 on the instant itself. *)
Lemma expire_seconds_past (env : Env) (expire : float_int_str) (t : Q) :
  expire_instant env expire = Return t ->
  (t < time_time env)%Q ->
  expire_seconds env expire = Raise (ValueError "Expire timestamp cannot be in the past!").
Proof.
  intros Ht Hlt. unfold expire_seconds. rewrite Ht. simpl.
  assert (H : negb (Qle_bool 0 (t - time_time env)) = true).
  { apply not_Qle_bool_iff. lra. }
  rewrite H. reflexivity.
Qed.

Lemma expire_seconds_not_past (env : Env) (expire : float_int_str) (t : Q) :
  expire_instant env expire = Return t ->
  (time_time env <= t)%Q ->
  expire_seconds env expire = Return (whole_seconds expire t).
Proof.
  intros Ht Hle. unfold expire_seconds. rewrite Ht. cbn [mbind outcome_bind].
  destruct (negb (Qle_bool 0 (t - time_time env))) eqn:H; [|reflexivity].
  apply not_Qle_bool_iff in H. lra.
Qed.

(** The instant of text that parses, and the instant of an [int] that
    [float] takes. *)
Lemma expire_instant_text (env : Env) (s : string) (d : datetime) :
  dateparser_parse env s = Some d ->
  expire_instant env (IsStr s) = Return (inject_Z (dt_seconds d)).
Proof. intros H. cbn [expire_instant]. rewrite H. reflexivity. Qed.

Lemma expire_instant_int (env : Env) (z : Z) (f : Q) :
  float_of_int z = Some f -> expire_instant env (IsInt z) = Return f.
Proof. intros H. cbn [expire_instant]. rewrite H. reflexivity. Qed.

(** An [int] that [float] does not take never reaches the test. *)
Lemma expire_seconds_overflow (env : Env) (z : Z) :
  float_of_int z = None -> expire_seconds env (IsInt z) = Raise OverflowError.
Proof.
  intros H. unfold expire_seconds. cbn [expire_instant]. rewrite H. reflexivity.
Qed.

(** An instant equal to [time.time()] is not strictly after it, and line 84
    lets it through: the difference is [0], which is not below [0]. *)
Lemma expire_equal_to_now_is_accepted :
  expire_instant sample_env (IsInt 1700000000) = Return (time_time sample_env)
  /\ ~ (time_time sample_env < time_time sample_env)%Q
  /\ expire_seconds sample_env (IsInt 1700000000) = Return 1700000000.
Proof.
  split; [reflexivity|]. split; [apply Qlt_irrefl | reflexivity].
Qed.

(** C2, amended.  Lines 79-87 compare the instant of the argument, taken
    as a float, with [time.time()]: an instant strictly before it is
    refused with [ValueError], an instant at or after it gives the whole
    seconds of the argument.  The instant of a float is that float, and
    its whole seconds are the float cut towards zero.  The instant of text
    that [dateparser] parses is what [time.mktime] gives, a whole number of
    seconds.  An [int] is returned as it is, and its instant is
    [float(expire)]: the [int] itself up to magnitude [2 ^ 53], the nearest
    double beyond, and from magnitude [2 ^ 1024 - 2 ^ 970] on no float but
    [OverflowError].  With [T = time.time()], the argument [T - 1] is
    refused and the argument [T + 3600] gives [T + 3600] cut to whole
    seconds. *)
Theorem expire_seconds_refuses_the_past_only (env : Env) :
  (forall q : Q,
      ((q < time_time env)%Q ->
       expire_seconds env (IsFloat q)
       = Raise (ValueError "Expire timestamp cannot be in the past!"))
      /\ ((time_time env <= q)%Q ->
          expire_seconds env (IsFloat q) = Return (int_of_float q)))
  /\ (forall (s : string) (d : datetime),
      dateparser_parse env s = Some d ->
      ((inject_Z (dt_seconds d) < time_time env)%Q ->
       expire_seconds env (IsStr s)
       = Raise (ValueError "Expire timestamp cannot be in the past!"))
      /\ ((time_time env <= inject_Z (dt_seconds d))%Q ->
          expire_seconds env (IsStr s) = Return (dt_seconds d)))
  /\ (forall z : Z,
      Z.abs z <= 2 ^ 53 ->
      ((inject_Z z < time_time env)%Q ->
       expire_seconds env (IsInt z)
       = Raise (ValueError "Expire timestamp cannot be in the past!"))
      /\ ((time_time env <= inject_Z z)%Q ->
          expire_seconds env (IsInt z) = Return z))
  /\ (forall (z : Z) (f : Q),
      float_of_int z = Some f ->
      ((f < time_time env)%Q ->
       expire_seconds env (IsInt z)
       = Raise (ValueError "Expire timestamp cannot be in the past!"))
      /\ ((time_time env <= f)%Q ->
          expire_seconds env (IsInt z) = Return z))
  /\ (forall z : Z,
      2 ^ 1024 - 2 ^ 970 <= Z.abs z ->
      expire_seconds env (IsInt z) = Raise OverflowError)
  /\ expire_seconds env (IsFloat (time_time env - 1))
     = Raise (ValueError "Expire timestamp cannot be in the past!")
  /\ expire_seconds env (IsFloat (time_time env + 3600))
     = Return (int_of_float (time_time env + 3600)).
Proof.
  assert (Hint : forall (z : Z) (f : Q),
             float_of_int z = Some f ->
             ((f < time_time env)%Q ->
              expire_seconds env (IsInt z)
              = Raise (ValueError "Expire timestamp cannot be in the past!"))
             /\ ((time_time env <= f)%Q ->
                 expire_seconds env (IsInt z) = Return z)).
  { intros z f Hf. pose proof (expire_instant_int env z f Hf) as Ht.
    split; intros H.
    - exact (expire_seconds_past env _ f Ht H).
    - exact (expire_seconds_not_past env _ f Ht H). }
  split; [|split; [|split; [|split; [|split; [|split]]]]].
  - intros q. split; intros H.
    + exact (expire_seconds_past env (IsFloat q) q eq_refl H).
    + exact (expire_seconds_not_past env (IsFloat q) q eq_refl H).
  - intros s d Hd. pose proof (expire_instant_text env s d Hd) as Ht.
    split; intros H.
    + exact (expire_seconds_past env _ _ Ht H).
    + rewrite (expire_seconds_not_past env _ _ Ht H).
      cbn [whole_seconds]. rewrite int_of_float_inject_Z. reflexivity.
  - intros z Hz. apply Hint. apply float_of_int_small. exact Hz.
  - exact Hint.
  - intros z Hz. apply expire_seconds_overflow.
    apply float_of_int_overflows. exact Hz.
  - apply (expire_seconds_past env _ (time_time env - 1)); [reflexivity | lra].
  - apply (expire_seconds_not_past env (IsFloat (time_time env + 3600))
             (time_time env + 3600)); [reflexivity | lra].
Qed.

Lemma expire_seconds_refuses_the_past_only_witness :
  expire_seconds sample_env (IsInt 1699999999)
  = Raise (ValueError "Expire timestamp cannot be in the past!")
  /\ expire_seconds sample_env (IsFloat (17000036005 # 10)) = Return 1700003600
  /\ expire_seconds sample_env (IsStr "tomorrow") = Return 1700086400
  /\ expire_seconds (sample_env_at (inject_Z (2 ^ 53 + 4))) (IsInt (2 ^ 53 + 3))
     = Return (2 ^ 53 + 3)
  /\ expire_seconds sample_env (IsInt (10 ^ 400)) = Raise OverflowError.
Proof.
  destruct (expire_seconds_refuses_the_past_only sample_env)
    as (Hfloat & Htext & Hsmall & _ & Hover & _).
  destruct (expire_seconds_refuses_the_past_only (sample_env_at (inject_Z (2 ^ 53 + 4))))
    as (_ & _ & _ & Hint & _).
  split; [|split; [|split; [|split]]].
  - apply (Hsmall 1699999999); [vm_compute; discriminate | reflexivity].
  - apply (Hfloat (17000036005 # 10)). vm_compute. discriminate.
  - apply (Htext "tomorrow" (Datetime 1700086400 250000));
      [reflexivity | vm_compute; discriminate].
  - apply (Hint (2 ^ 53 + 3) (inject_Z (2 ^ 53 + 4))); [reflexivity|].
    vm_compute. discriminate.
  - apply (Hover (10 ^ 400)). vm_compute. discriminate.
Defined.

(** The name the call of line 88 looks up is bound in the class body only. *)
Lemma generate_secure_signature_not_in_scope :
  In "generate_secure_signature" class_attributes
  /\ free_name_bound module_globals "generate_secure_signature" = false.
Proof. split; [simpl; tauto | reflexivity]. Qed.

(** With no secret key, an [expire] of an accepted type is met with
    [MissingSecretKey]. *)
Lemma secure_expire_signature_missing_key
    (self : UploadCare) (env : Env) (expire : pyval) (x : float_int_str) :
  as_float_int_str expire = Some x ->
  py_truthy (secret_key self) = false ->
  _secure_expire_signature self env expire = Raise MissingSecretKey.
Proof.
  intros Hx Hk. unfold _secure_expire_signature, secure_expire_signature_in.
  rewrite Hx, Hk. reflexivity.
Qed.

(** Were the helper a global of the module, a text or bytes key and an
    [expire] that is not in the past would give the two parameters. *)
Lemma secure_expire_signature_in_scope
    (globals : list string) (self : UploadCare) (env : Env) (expire : pyval)
    (x : float_int_str) (t : Q) (signature : string) :
  free_name_bound globals "generate_secure_signature" = true ->
  as_float_int_str expire = Some x ->
  py_truthy (secret_key self) = true ->
  expire_instant env x = Return t ->
  (time_time env <= t)%Q ->
  generate_secure_signature (secret_key self) (whole_seconds x t) = Return signature ->
  secure_expire_signature_in globals self env expire
  = Return (<["signature" := PStr signature]> {["expire" := PInt (whole_seconds x t)]}).
Proof.
  intros Hb Hx Hk Ht Hle Hs. unfold secure_expire_signature_in.
  rewrite Hx, Hk. simpl.
  rewrite (expire_seconds_not_past env x t Ht Hle). simpl.
  rewrite Hb, Hs. reflexivity.
Qed.

(** As the module stands, the method never returns: every path that passes
    the checks ends at the unbound name. *)
Lemma secure_expire_signature_never_returns
    (self : UploadCare) (env : Env) (expire : pyval) (params : gmap string pyval) :
  _secure_expire_signature self env expire <> Return params.
Proof.
  unfold _secure_expire_signature, secure_expire_signature_in.
  destruct (as_float_int_str expire) as [x|]; [|discriminate].
  destruct (negb (py_truthy (secret_key self))); [discriminate|].
  destruct (expire_seconds env x) as [e| |]; simpl; discriminate.
Qed.

(** C1, at a client with a secret key and an [expire] one hour ahead: the
    call of line 88 raises [NameError], where the parameters
    [expire = 1700003600] and the signature of that numeral were due. *)
Theorem secure_expire_signature_raises_name_error :
  _secure_expire_signature sample_signing_client sample_env (PInt 1700003600)
  = Raise (NameError "generate_secure_signature")
  /\ secure_expire_signature_in ("generate_secure_signature" :: module_globals)
       sample_signing_client sample_env (PInt 1700003600)
     = Return (<["signature" :=
                   PStr "2ed7039e16d886731d46feb456cf07280eb36d98f98cf31c360cbf6a01f9c8d1"]>
                 {["expire" := PInt 1700003600]}).
Proof. split; vm_compute; reflexivity. Qed.

(** ** The [expire] precondition of the public operations *)

(** The first statement of [upload], [start_multipart] and [create_group]:
    with a secret key and an [expire] that is not truthy, the call raises
    and the world is left as it was. *)
Lemma expire_precondition (self : UploadCare) (expire : pyval) :
  py_truthy (secret_key self) = true ->
  py_truthy expire = false ->
  (forall env _input store metadata kwargs w,
      upload self env _input store metadata expire kwargs w
      = (Raise MissingExpireKwarg, w))
  /\ (forall env filename size kwargs w,
      start_multipart self env filename size expire kwargs w
      = (Raise MissingExpireKwarg, w))
  /\ (forall env files kwargs w,
      create_group self env files expire kwargs w
      = (Raise MissingExpireKwarg, w)).
Proof.
  intros Hk He. unfold upload, start_multipart, create_group.
  rewrite Hk, He. simpl. auto.
Qed.

(** C3. With a secret key configured (a truthy [secret_key]), [upload],
    [start_multipart] and [create_group] called without [expire] (it is then
    [None]) raise [MissingExpireKwarg], and the world after the call is the
    world before it: no request has been sent, no reply consumed. *)
Theorem missing_expire_raises_before_any_request (self : UploadCare) :
  py_truthy (secret_key self) = true ->
  (forall env _input store metadata kwargs w,
      upload self env _input store metadata PNone kwargs w
      = (Raise MissingExpireKwarg, w))
  /\ (forall env filename size kwargs w,
      start_multipart self env filename size PNone kwargs w
      = (Raise MissingExpireKwarg, w))
  /\ (forall env files kwargs w,
      create_group self env files PNone kwargs w
      = (Raise MissingExpireKwarg, w)).
Proof. intros Hk. apply (expire_precondition self PNone Hk). reflexivity. Qed.

Lemma missing_expire_raises_before_any_request_witness :
  let w := sample_world [sample_reply 200 "{}" {["file" := PStr "UUID123"]}] in
  upload sample_signing_client sample_env "photo.jpg" (AStr "auto") None PNone ∅ w
  = (Raise MissingExpireKwarg, w)
  /\ trace (snd (start_multipart sample_signing_client sample_env "big.bin" 20000000
                   PNone ∅ w)) = []
  /\ fst (create_group sample_signing_client sample_env [PStr "UUID123"] PNone ∅ w)
     = Raise MissingExpireKwarg.
Proof.
  intros w.
  destruct (missing_expire_raises_before_any_request sample_signing_client eq_refl)
    as (Hu & Hs & Hg).
  split; [apply Hu|]. split; [rewrite Hs | rewrite Hg]; reflexivity.
Defined.

(** C10. With a secret key configured, an [expire] given as [0], [0.0] or
    the empty string is not truthy: the three operations raise
    [MissingExpireKwarg] as if none had been given, before any request. *)
Theorem falsy_expire_raises_missing_expire (self : UploadCare) (expire : pyval) :
  py_truthy (secret_key self) = true ->
  In expire [PInt 0; PFloat 0; PStr ""] ->
  (forall env _input store metadata kwargs w,
      upload self env _input store metadata expire kwargs w
      = (Raise MissingExpireKwarg, w))
  /\ (forall env filename size kwargs w,
      start_multipart self env filename size expire kwargs w
      = (Raise MissingExpireKwarg, w))
  /\ (forall env files kwargs w,
      create_group self env files expire kwargs w
      = (Raise MissingExpireKwarg, w)).
Proof.
  intros Hk Hin. apply (expire_precondition self expire Hk).
  simpl in Hin. destruct Hin as [<-|[<-|[<-|[]]]]; reflexivity.
Qed.

Lemma falsy_expire_raises_missing_expire_witness :
  let w := sample_world [sample_reply 200 "{}" {["file" := PStr "UUID123"]}] in
  upload sample_signing_client sample_env "photo.jpg" (AStr "auto") None (PInt 0) ∅ w
  = (Raise MissingExpireKwarg, w)
  /\ start_multipart sample_signing_client sample_env "big.bin" 20000000 (PFloat 0) ∅ w
     = (Raise MissingExpireKwarg, w)
  /\ create_group sample_signing_client sample_env [PStr "UUID123"] (PStr "") ∅ w
     = (Raise MissingExpireKwarg, w).
Proof.
  intros w. split; [|split].
  - apply (falsy_expire_raises_missing_expire sample_signing_client (PInt 0) eq_refl).
    simpl. auto.
  - apply (falsy_expire_raises_missing_expire sample_signing_client (PFloat 0) eq_refl).
    simpl. auto.
  - apply (falsy_expire_raises_missing_expire sample_signing_client (PStr "") eq_refl).
    simpl. auto.
Defined.

(** ** Polling the status of a fetch *)

Lemma check_status_poll_fruitless (endpoint : string) (token : pyval)
    (pre rs : list Response) (tr : list event) :
  Forall (fun r => keeps_polling r = true) pre ->
  check_status_poll endpoint token (pre ++ rs) tr
  = check_status_poll endpoint token rs
      (tr ++ fruitless_polls (List.length pre)
                (Build_Request "POST" endpoint {["token" := token]} None)).
Proof.
  intros Hpre. revert tr.
  induction Hpre as [|p pre Hp _ IH]; intros tr.
  - simpl. now rewrite app_nil_r.
  - unfold keeps_polling, status_of in Hp.
    cbn [app check_status_poll List.length fruitless_polls].
    destruct (json p) as [[| | | | | | |d]|]; try discriminate.
    cbn [py_getitem]. destruct (d !! "status") as [status|]; [|discriminate].
    apply negb_true_iff in Hp.
    destruct (py_eq_str status "success"); [discriminate|].
    cbn [orb] in Hp |- *. rewrite Hp. cbn [trace].
    rewrite IH. f_equal. rewrite <- !app_assoc. reflexivity.
Qed.

(** The recursion of [check_status_poll] is the loop of lines 126-133 read
    in the monad: post, read the status, and either leave the loop, raise,
    or sleep and go round again. *)
Lemma check_status_poll_turn (endpoint : string) (token : pyval) (w : World) :
  check_status_poll endpoint token (replies w) (trace w)
  = (status_res ← requests_post endpoint {["token" := token]} None;
     payload ← lift (match json status_res with
                     | Some payload => Return payload
                     | None => Raise JSONDecodeError
                     end);
     status ← lift (py_getitem payload "status");
     if py_eq_str status "success" then mret status_res
     else if py_eq_str status "error" || py_eq_str status "unknown"
          then raise (ConnectionError (text status_res))
          else (time_sleep (1 # 2);;
                ((fun w' => check_status_poll endpoint token (replies w') (trace w'))
                 : M Response))) w.
Proof.
  unfold mbind, M_bind, requests_post, lift.
  destruct (replies w) as [|status_res rest]; [reflexivity|].
  cbn [check_status_poll]. destruct (json status_res) as [payload|]; [|reflexivity].
  destruct (py_getitem payload "status") as [status| |]; try reflexivity.
  destruct (py_eq_str status "success"); [reflexivity|].
  destruct (_ || _); reflexivity.
Qed.

(** C7. After any number of replies that settle nothing, each followed by a
    sleep of half a second: a reply of status [success] makes [check_status]
    return its [filename] and [uuid]; a reply of status [error] or [unknown]
    makes it raise [ConnectionError] with the body of that reply; in both
    cases the replies after it are left unread.  While no reply settles, it
    goes on polling. *)
Theorem check_status_polls_until_settled (self : UploadCare) (token : pyval)
    (pre : list Response) (r : Response) (rest : list Response) (tr : list event) :
  Forall (fun r => keeps_polling r = true) pre ->
  let request := poll_request self token in
  let w := {| replies := pre ++ r :: rest; trace := tr |} in
  let w' := {| replies := rest;
               trace := tr ++ fruitless_polls (List.length pre) request
                           ++ [Sent request] |} in
  (forall (d : gmap string pyval) (filename uuid : pyval),
      json r = Some (PDict d) ->
      d !! "status" = Some (PStr "success") ->
      d !! "filename" = Some filename ->
      d !! "uuid" = Some uuid ->
      check_status self token w = (Return (filename, uuid), w'))
  /\ (status_of r = Some (PStr "error") \/ status_of r = Some (PStr "unknown") ->
      check_status self token w = (Raise (ConnectionError (text r)), w'))
  /\ check_status self token {| replies := pre; trace := tr |}
     = (Starved, {| replies := [];
                    trace := tr ++ fruitless_polls (List.length pre) request
                                ++ [Sent request] |}).
Proof.
  intros Hpre request w w'. unfold check_status, mbind, M_bind.
  split; [|split].
  - intros d filename uuid Hj Hs Hf Hu. cbn [replies trace w].
    rewrite (check_status_poll_fruitless _ _ pre (r :: rest) tr Hpre).
    cbn [check_status_poll]. rewrite Hj. cbn [py_getitem]. rewrite Hs.
    cbn [py_eq_str]. cbn [String.eqb Ascii.eqb Bool.eqb andb].
    unfold lift. rewrite Hj. cbn [py_getitem]. rewrite Hf, Hu.
    unfold w', request, poll_request. rewrite <- app_assoc. reflexivity.
  - intros Hs. cbn [replies trace w].
    rewrite (check_status_poll_fruitless _ _ pre (r :: rest) tr Hpre).
    cbn [check_status_poll]. unfold status_of in Hs.
    destruct (json r) as [[| | | | | | |d]|]; try (destruct Hs; discriminate).
    cbn [py_getitem].
    unfold w', request, poll_request. rewrite <- app_assoc.
    destruct Hs as [-> | ->]; reflexivity.
  - cbn [replies trace].
    rewrite <- (app_nil_r pre) at 1.
    rewrite (check_status_poll_fruitless _ _ pre [] tr Hpre).
    cbn [check_status_poll]. unfold request, poll_request.
    rewrite <- app_assoc. reflexivity.
Qed.

(** The scenario [pending, pending, success]: three polls, two sleeps, and
    the names of the third reply; [pending, error]: two polls and the body
    of the second reply. *)
Lemma check_status_polls_until_settled_witness :
  let request := poll_request sample_client (PStr "token") in
  check_status sample_client (PStr "token")
    (sample_world [sample_pending; sample_pending; sample_success])
  = (Return (PStr "a.png", PStr "U1"),
     {| replies := [];
        trace := [Sent request; Slept (1 # 2); Sent request; Slept (1 # 2);
                  Sent request] |})
  /\ check_status sample_client (PStr "token")
       (sample_world [sample_pending; sample_error; sample_success])
     = (Raise (ConnectionError "{'status': 'error', 'error': 'no such host'}"),
        {| replies := [sample_success];
           trace := [Sent request; Slept (1 # 2); Sent request] |}).
Proof.
  intros request. split.
  - refine (proj1 (check_status_polls_until_settled sample_client (PStr "token")
                     [sample_pending; sample_pending] sample_success [] [] _)
                  _ (PStr "a.png") (PStr "U1") eq_refl _ _ _);
      [repeat constructor | reflexivity ..].
  - refine (proj1 (proj2 (check_status_polls_until_settled sample_client (PStr "token")
                            [sample_pending] sample_error [sample_success] [] _)) _);
      [repeat constructor | left; reflexivity].
Defined.

Example three_polls_for_pending_pending_success :
  List.length
    (requests_sent
       (trace (snd (check_status sample_client (PStr "token")
                      (sample_world [sample_pending; sample_pending; sample_success])))))
  = 3%nat.
Proof. vm_compute. reflexivity. Qed.

(** ** What the operations send *)

Lemma not_own_extension {A} (l : list A) (x : A) (more : list A) :
  l <> (l ++ x :: more)%list.
Proof.
  intros H. apply (f_equal List.length) in H. rewrite length_app in H.
  simpl in H. lia.
Qed.

Lemma sent_first_inv (tr : list event) (r req : Request) (ext more : list event) :
  ((tr ++ [Sent r]) ++ ext = tr ++ Sent req :: more)%list -> req = r.
Proof.
  rewrite <- app_assoc. intros H. apply app_inv_head in H.
  simpl in H. congruence.
Qed.

Lemma grows_lift {A} (o : outcome A) : grows (lift o).
Proof. intros w. exists []. simpl. now rewrite app_nil_r. Qed.

Lemma grows_mret {A} (a : A) : grows (mret a : M A).
Proof. intros w. exists []. simpl. now rewrite app_nil_r. Qed.

Lemma grows_bind {A B} (m : M A) (k : A -> M B) :
  grows m -> (forall a, grows (k a)) -> grows (m ≫= k).
Proof.
  intros Hm Hk w. unfold mbind, M_bind.
  destruct (Hm w) as [ext1 H1].
  destruct (m w) as [[a| |] w1]; simpl in *.
  - destruct (Hk a w1) as [ext2 H2]. exists (ext1 ++ ext2)%list.
    rewrite H2, H1. now rewrite app_assoc.
  - eauto.
  - eauto.
Qed.

Lemma grows_check_status_poll (endpoint : string) (token : pyval)
    (rs : list Response) (tr : list event) :
  exists ext, trace (snd (check_status_poll endpoint token rs tr)) = (tr ++ ext)%list.
Proof.
  revert tr. induction rs as [|r rs IH]; intros tr; cbn [check_status_poll].
  - eauto.
  - destruct (json r) as [payload|]; [|simpl; eauto].
    destruct (py_getitem payload "status") as [status| |]; try (simpl; eauto).
    destruct (py_eq_str status "success"); [simpl; eauto|].
    destruct (_ || _); [simpl; eauto|].
    cbn [trace]. destruct (IH ((tr ++ [Sent (Build_Request "POST" endpoint {["token" := token]} None)]) ++ [Slept (1 # 2)])%list) as [ext H].
    rewrite H. rewrite <- !app_assoc. eauto.
Qed.

Lemma grows_check_status (self : UploadCare) (token : pyval) :
  grows (check_status self token).
Proof.
  unfold check_status. apply grows_bind.
  - intros w. apply grows_check_status_poll.
  - intros r. apply grows_bind; [apply grows_lift|]. intros p.
    apply grows_bind; [apply grows_lift|]. intros f.
    apply grows_bind; [apply grows_lift|]. intros u. apply grows_mret.
Qed.

Lemma grows_upload_outcome (self : UploadCare) (is_url : bool) (fname : string)
    (res_json : pyval) :
  grows (upload_outcome self is_url fname res_json).
Proof.
  unfold upload_outcome. destruct is_url; simpl.
  - apply grows_bind; [apply grows_lift|]. intros t.
    destruct (py_truthy t).
    + apply grows_bind; [apply grows_lift|]. intros tok. apply grows_check_status.
    + apply grows_bind; [apply grows_lift|]. intros f.
      apply grows_bind; [apply grows_lift|]. intros u. apply grows_mret.
  - apply grows_bind; [apply grows_lift|]. intros u. apply grows_mret.
Qed.

Lemma secure_expire_signature_in_params (globals : list string) (self : UploadCare)
    (env : Env) (expire : pyval) (params : gmap string pyval) :
  secure_expire_signature_in globals self env expire = Return params ->
  exists (e : Z) (s : string),
    params = <["signature" := PStr s]> {["expire" := PInt e]}.
Proof.
  unfold secure_expire_signature_in.
  destruct (as_float_int_str expire) as [x|]; [|discriminate].
  destruct (negb _); [discriminate|].
  destruct (expire_seconds env x) as [e| |]; simpl; try discriminate.
  destruct (if free_name_bound globals "generate_secure_signature" then _ else _)
    as [s| |]; simpl; try discriminate.
  intros [= <-]. eauto.
Qed.

Lemma add_signature_lookup (self : UploadCare) (env : Env) (expire : pyval)
    (data data' : gmap string pyval) (k : string) :
  add_signature self env expire data = Return data' ->
  (py_truthy expire = true -> k <> "expire" /\ k <> "signature") ->
  data' !! k = data !! k.
Proof.
  unfold add_signature. destruct (py_truthy expire).
  - destruct (_secure_expire_signature self env expire) as [params| |] eqn:E;
      simpl; try discriminate.
    intros [= <-] Hk. destruct (Hk eq_refl) as [He Hs].
    apply secure_expire_signature_in_params in E as (e & s & ->).
    unfold dict_update. rewrite lookup_union_r; [reflexivity|].
    rewrite lookup_insert_ne by congruence. apply lookup_singleton_ne. congruence.
  - intros [= <-] _. reflexivity.
Qed.

Lemma sends_first_lift_bind {A B} (o : outcome A) (k : A -> M B) (w : World)
    (req : Request) :
  sends_first (lift o ≫= k) w req ->
  exists a, o = Return a /\ sends_first (k a) w req.
Proof.
  intros [more H]. unfold mbind, M_bind, lift in H.
  destruct o as [a| |]; simpl in H.
  - exists a. split; [reflexivity|]. exists more. exact H.
  - destruct (not_own_extension _ _ _ H).
  - destruct (not_own_extension _ _ _ H).
Qed.

Lemma sends_first_post_bind {A} (url : string) (data : gmap string pyval)
    (files : option (string * list byte * option string)) (k : Response -> M A)
    (w : World) (req : Request) :
  (forall res, grows (k res)) ->
  sends_first (requests_post url data files ≫= k) w req ->
  req = Build_Request "POST" url data files.
Proof.
  intros Hk [more H]. unfold mbind, M_bind, requests_post in H.
  destruct (replies w) as [|res rest].
  - simpl in H. apply app_inv_head in H. congruence.
  - destruct (Hk res {| replies := rest;
                        trace := trace w ++ [Sent (Build_Request "POST" url data files)] |})
      as [ext Hext].
    rewrite Hext in H. cbn [trace] in H.
    exact (sent_first_inv _ _ _ _ _ H).
Qed.

Lemma sends_first_raise {A} (e : exn) (w : World) (req : Request) :
  ~ sends_first (raise e : M A) w req.
Proof. intros [more H]. simpl in H. exact (not_own_extension _ _ _ H). Qed.

Lemma upload_first_request (self : UploadCare) (env : Env) (_input : string)
    (store : int_or_str) (metadata : option (gmap string pyval)) (expire : pyval)
    (kwargs : gmap string pyval) (w : World) (req : Request) :
  sends_first (upload self env _input store metadata expire kwargs) w req ->
  exists is_url : bool,
    (is_url = true <-> fs env _input = None)
    /\ add_signature self env expire
         (upload_fields self _input is_url store metadata kwargs)
       = Return (req_data req).
Proof.
  unfold upload. destruct (_ && _).
  { intros H. destruct (sends_first_raise _ _ _ H). }
  intros H.
  apply sends_first_lift_bind in H as ([is_url endpoint] & Hid & H).
  assert (Hurl : is_url = true <-> fs env _input = None).
  { unfold _input_identity in Hid. destruct (fs env _input).
    - injection Hid as <- _. split; discriminate.
    - destruct (negb _); [discriminate|]. injection Hid as <- _. tauto. }
  exists is_url. split; [exact Hurl|].
  assert (Hk : forall fn res,
             grows (res_json ← lift (_check_response self res);
                    '(fname, _uuid) ← upload_outcome self is_url fn res_json;
                    mret (cdn_url env _uuid fname))).
  { intros fn res. apply grows_bind; [apply grows_lift|]. intros j.
    apply grows_bind; [apply grows_upload_outcome|]. intros [f u]. apply grows_mret. }
  destruct is_url; cbn [negb] in H.
  - change (sends_first
              (data ← lift (add_signature self env expire
                              (upload_fields self _input true store metadata kwargs));
               res ← requests_post endpoint data None;
               res_json ← lift (_check_response self res);
               '(fname, _uuid) ← upload_outcome self true (path_name _input) res_json;
               mret (cdn_url env _uuid fname)) w req) in H.
    apply sends_first_lift_bind in H as (data & Hdata & H).
    apply sends_first_post_bind in H; [|apply Hk].
    rewrite Hdata, H. reflexivity.
  - apply sends_first_lift_bind in H as (fdata & _ & H).
    apply sends_first_lift_bind in H as (data & Hdata & H).
    apply sends_first_post_bind in H; [|apply Hk].
    rewrite Hdata, H. reflexivity.
Qed.

Lemma create_group_first_request (self : UploadCare) (env : Env) (files : list pyval)
    (expire : pyval) (kwargs : gmap string pyval) (w : World) (req : Request) :
  sends_first (create_group self env files expire kwargs) w req ->
  add_signature self env expire (create_group_fields self files kwargs)
  = Return (req_data req).
Proof.
  unfold create_group. destruct (_ && _).
  { intros H. destruct (sends_first_raise _ _ _ H). }
  intros H.
  apply sends_first_lift_bind in H as (data & Hdata & H).
  apply sends_first_post_bind in H; [|intros res; apply grows_lift].
  rewrite Hdata, H. reflexivity.
Qed.

Lemma dict_update_lookup (d e : gmap string pyval) (k : string) :
  dict_update d e !! k = match e !! k with Some v => Some v | None => d !! k end.
Proof.
  unfold dict_update. destruct (e !! k) as [v|] eqn:E.
  - now apply lookup_union_Some_l.
  - now apply lookup_union_r.
Qed.

Lemma add_metadata_lookup_other (metadata : option (gmap string pyval))
    (data : gmap string pyval) (k : string) :
  (forall m j, metadata = Some m -> is_Some (m !! j) -> k <> metadata_field j) ->
  add_metadata metadata data !! k = data !! k.
Proof.
  unfold add_metadata. destruct metadata as [m|]; [|reflexivity].
  intros Hk. destruct (negb _); [|reflexivity].
  assert (H : forall j, is_Some (m !! j) -> k <> metadata_field j) by eauto.
  clear Hk. revert H.
  apply (map_fold_weak_ind
           (fun r (m' : gmap string pyval) =>
              (forall j, is_Some (m' !! j) -> k <> metadata_field j) ->
              r !! k = data !! k)).
  - reflexivity.
  - intros j x m' r Hj IH H. rewrite dict_update_lookup.
    rewrite lookup_singleton_ne.
    + apply IH. intros j' Hj'. apply H.
      destruct (decide (j = j')) as [->|Hne].
      * rewrite lookup_insert_eq. eauto.
      * rewrite lookup_insert_ne by exact Hne. exact Hj'.
    + intros E. apply (H j); [|symmetry; exact E].
      rewrite lookup_insert_eq. eauto.
Qed.

Lemma add_files_lookup_other (n : nat) (files : list pyval)
    (data : gmap string pyval) (k : string) :
  (forall i, (i < List.length files)%nat -> k <> files_field (n + i)) ->
  add_files n files data !! k = data !! k.
Proof.
  revert n data. induction files as [|file rest IH]; intros n data H; [reflexivity|].
  cbn [add_files]. rewrite IH.
  - rewrite dict_update_lookup, lookup_singleton_ne; [reflexivity|].
    intros E. apply (H 0%nat); [simpl; lia|]. now rewrite Nat.add_0_r.
  - intros i Hi. replace (S n + i)%nat with (n + S i)%nat by lia.
    apply H. simpl. lia.
Qed.

Lemma upload_fields_extra (self : UploadCare) (_input : string) (is_url : bool)
    (store : int_or_str) (metadata : option (gmap string pyval))
    (kwargs : gmap string pyval) (k : string) (v : pyval) :
  kwargs !! k = Some v ->
  (is_url = true -> k <> "source_url") ->
  (forall m j, metadata = Some m -> is_Some (m !! j) -> k <> metadata_field j) ->
  upload_fields self _input is_url store metadata kwargs !! k = Some v.
Proof.
  intros Hv Hsrc Hmeta. unfold upload_fields.
  rewrite add_metadata_lookup_other by exact Hmeta.
  destruct is_url.
  - rewrite dict_update_lookup, lookup_singleton_ne by (intros E; now apply Hsrc).
    rewrite dict_update_lookup, Hv. reflexivity.
  - rewrite dict_update_lookup, Hv. reflexivity.
Qed.

Lemma create_group_fields_extra (self : UploadCare) (files : list pyval)
    (kwargs : gmap string pyval) (k : string) (v : pyval) :
  kwargs !! k = Some v ->
  (forall n, (n < List.length files)%nat -> k <> files_field n) ->
  create_group_fields self files kwargs !! k = Some v.
Proof.
  intros Hv Hfiles. unfold create_group_fields.
  rewrite add_files_lookup_other by exact Hfiles.
  rewrite dict_update_lookup, Hv. reflexivity.
Qed.

Lemma reserved_upload_field_not_rewritten (env : Env) (_input : string)
    (metadata : option (gmap string pyval)) (expire : pyval) (k : string) :
  reserved_upload_field k -> ~ upload_rewrites env _input metadata expire k.
Proof.
  intros Hk [[_ ->]|[(m & j & _ & _ & ->)|[_ [->| ->]]]];
    destruct Hk as [H|[H|H]]; discriminate H.
Qed.

Lemma pub_key_not_rewritten (files : list pyval) (expire : pyval) :
  ~ create_group_rewrites files expire "pub_key".
Proof. intros [(n & _ & H)|[_ [H|H]]]; discriminate H. Qed.

(** C4, amended. In every request [upload] or [create_group] sends, an extra
    field is present with the value the caller gave it, unless it bears a
    name the operation writes after the merge ([source_url], [metadata[..]],
    [files[n]], [expire], [signature]).  The fixed fields are written before
    the merge: an extra field named as the public-key field or the store
    flag replaces it, and the value of the extra field is the one sent. *)
Theorem extra_fields_override_reserved_fields (self : UploadCare) (env : Env)
    (kwargs : gmap string pyval) (k : string) (v : pyval) :
  kwargs !! k = Some v ->
  (forall _input store metadata expire w req,
      sends_first (upload self env _input store metadata expire kwargs) w req ->
      (~ upload_rewrites env _input metadata expire k -> req_data req !! k = Some v)
      /\ (reserved_upload_field k -> req_data req !! k = Some v))
  /\ (forall files expire w req,
      sends_first (create_group self env files expire kwargs) w req ->
      (~ create_group_rewrites files expire k -> req_data req !! k = Some v)
      /\ (k = "pub_key" -> req_data req !! k = Some v)).
Proof.
  intros Hv. split.
  - intros _input store metadata expire w req Hsend.
    assert (H : ~ upload_rewrites env _input metadata expire k ->
                req_data req !! k = Some v).
    { intros Hk.
      apply upload_first_request in Hsend as (is_url & Hurl & Hsig).
      rewrite (add_signature_lookup _ _ _ _ _ k Hsig).
      - apply upload_fields_extra; [exact Hv| |].
        + intros -> ->. apply Hk. left. split; [now apply Hurl | reflexivity].
        + intros m j -> Hj ->. apply Hk. right. left. eauto.
      - intros He. split; intros ->; apply Hk; right; right; auto. }
    split; [exact H|]. intros Hk. apply H.
    now apply reserved_upload_field_not_rewritten.
  - intros files expire w req Hsend.
    assert (H : ~ create_group_rewrites files expire k ->
                req_data req !! k = Some v).
    { intros Hk. apply create_group_first_request in Hsend as Hsig.
      rewrite (add_signature_lookup _ _ _ _ _ k Hsig).
      - apply create_group_fields_extra; [exact Hv|].
        intros n Hn ->. apply Hk. left. eauto.
      - intros He. split; intros ->; apply Hk; right; auto. }
    split; [exact H|]. intros ->. apply H. apply pub_key_not_rewritten.
Qed.

Lemma extra_fields_override_reserved_fields_witness :
  let kwargs : gmap string pyval := {["UPLOADCARE_STORE" := PStr "0"]} in
  req_data (sample_upload_request kwargs) !! "UPLOADCARE_STORE" = Some (PStr "0").
Proof.
  intros kwargs.
  refine (proj2 (proj1 (extra_fields_override_reserved_fields sample_client sample_env
                          kwargs "UPLOADCARE_STORE" (PStr "0") eq_refl)
                       "photo.jpg" (AStr "auto") None PNone
                       (sample_world [sample_file_reply])
                       (sample_upload_request kwargs) _) _).
  - exists []. vm_compute. reflexivity.
  - right. right. reflexivity.
Defined.

(** C4 as it was stated fails: the store flag [upload] sends and the public
    key [create_group] sends are those of the extra fields, not the fixed
    ones ([str(store)] and [self.pub_key]). *)
Lemma extra_field_replaces_reserved_field :
  (exists req,
      trace (snd (sample_upload {["UPLOADCARE_STORE" := PStr "0"]}
                    (sample_world [sample_file_reply]))) = [Sent req]
      /\ req_data req !! "UPLOADCARE_STORE" = Some (PStr "0")
      /\ PStr "0" <> PStr (str_of (AStr "auto")))
  /\ (exists req,
      trace (snd (create_group sample_client sample_env [PStr "UUID123"] PNone
                    {["pub_key" := PStr "another_key"]}
                    (sample_world [sample_file_reply]))) = [Sent req]
      /\ req_data req !! "pub_key" = Some (PStr "another_key")
      /\ PStr "another_key" <> PStr (pub_key sample_client)).
Proof.
  split; eexists; (split; [vm_compute; reflexivity|]);
    (split; [vm_compute; reflexivity | discriminate]).
Qed.

(** ** The address of an uploaded file *)

Lemma upload_sends_past_precondition (self : UploadCare) (env : Env) (_input : string)
    (store : int_or_str) (metadata : option (gmap string pyval)) (expire : pyval)
    (kwargs : gmap string pyval) (w : World) (req : Request) :
  sends_first (upload self env _input store metadata expire kwargs) w req ->
  py_truthy (secret_key self) && negb (py_truthy expire) = false.
Proof.
  unfold upload. destruct (_ && _); [|reflexivity].
  intros H. destruct (sends_first_raise _ _ _ H).
Qed.



(** ** Signed operations as the module stands *)

Lemma secure_expire_signature_raises (self : UploadCare) (env : Env) (expire : pyval) :
  exists e, _secure_expire_signature self env expire = Raise e.
Proof.
  unfold _secure_expire_signature, secure_expire_signature_in.
  destruct (as_float_int_str expire) as [x|]; [|eauto].
  destruct (negb (py_truthy (secret_key self))); [eauto|].
  unfold expire_seconds.
  destruct x as [q|z|s]; cbn [expire_instant mbind outcome_bind].
  - destruct (negb _); simpl; eauto.
  - destruct (float_of_int z); simpl; [|eauto].
    destruct (negb _); simpl; eauto.
  - destruct (dateparser_parse env s); simpl; [|eauto].
    destruct (negb _); simpl; eauto.
Qed.

(** An [expire] that is truthy makes [upload] raise without a request: the
    secure parameters are never obtained. *)
Lemma upload_with_expire_sends_nothing (self : UploadCare) (env : Env)
    (_input : string) (store : int_or_str) (metadata : option (gmap string pyval))
    (expire : pyval) (kwargs : gmap string pyval) (w : World) :
  py_truthy expire = true ->
  exists e, upload self env _input store metadata expire kwargs w = (Raise e, w).
Proof.
  intros He. unfold upload. rewrite He, andb_false_r.
  unfold mbind, M_bind, lift, _input_identity.
  assert (Hsig : forall data, exists e,
               add_signature self env expire data = Raise e).
  { intros data. unfold add_signature. rewrite He.
    destruct (secure_expire_signature_raises self env expire) as [e ->]. simpl. eauto. }
  destruct (fs env _input) as [node|] eqn:Hfs.
  - cbn [negb]. unfold open_rb. rewrite Hfs.
    destruct node; [|destruct (String.eqb _input ""); eauto].
    destruct (Hsig (upload_fields self _input false store metadata kwargs)) as [e ->].
    eauto.
  - destruct (negb (String.prefix "http" _input)); [eauto|].
    cbn [negb]. unfold mret, M_ret.
    destruct (Hsig (upload_fields self _input true store metadata kwargs)) as [e ->].
    eauto.
Qed.

(** * Further properties *)

(** ** Inputs that [upload] turns away *)

Lemma upload_request (self : UploadCare) (env : Env) (_input : string)
    (store : int_or_str) (metadata : option (gmap string pyval)) (expire : pyval)
    (kwargs : gmap string pyval) (w : World) (req : Request) :
  sends_first (upload self env _input store metadata expire kwargs) w req ->
  (exists content data,
      fs env _input = Some (File content)
      /\ add_signature self env expire
           (upload_fields self _input false store metadata kwargs) = Return data
      /\ req = Build_Request "POST" (api_url self ++ "/base/") data
                 (Some (path_name _input, content, guess_type env (path_name _input))))
  \/ (exists data,
      fs env _input = None
      /\ String.prefix "http" _input = true
      /\ add_signature self env expire
           (upload_fields self _input true store metadata kwargs) = Return data
      /\ req = Build_Request "POST" (api_url self ++ "/from_url/") data None).
Proof.
  unfold upload. destruct (_ && _).
  { intros H. destruct (sends_first_raise _ _ _ H). }
  intros H.
  apply sends_first_lift_bind in H as ([is_url endpoint] & Hid & H).
  assert (Hk : forall fn res,
             grows (res_json ← lift (_check_response self res);
                    '(fname, _uuid) ← upload_outcome self is_url fn res_json;
                    mret (cdn_url env _uuid fname))).
  { intros fn res. apply grows_bind; [apply grows_lift|]. intros j.
    apply grows_bind; [apply grows_upload_outcome|]. intros [f u]. apply grows_mret. }
  unfold _input_identity in Hid. destruct (fs env _input) as [node|] eqn:Hfs.
  - injection Hid as <- <-. left. cbn [negb] in H.
    apply sends_first_lift_bind in H as (fdata & Hopen & H).
    apply sends_first_lift_bind in H as (data & Hdata & H).
    apply sends_first_post_bind in H; [|apply Hk].
    unfold open_rb in Hopen. rewrite Hfs in Hopen.
    destruct node as [content|];
      [|destruct (String.eqb _input ""); discriminate].
    injection Hopen as ->.
    exists fdata, data. auto.
  - destruct (String.prefix "http" _input); [|discriminate].
    injection Hid as <- <-. right. cbn [negb] in H.
    change (sends_first
              (data ← lift (add_signature self env expire
                              (upload_fields self _input true store metadata kwargs));
               res ← requests_post (api_url self ++ "/from_url/") data None;
               res_json ← lift (_check_response self res);
               '(fname, _uuid) ← upload_outcome self true (path_name _input) res_json;
               mret (cdn_url env _uuid fname)) w req) in H.
    apply sends_first_lift_bind in H as (data & Hdata & H).
    apply sends_first_post_bind in H; [|apply Hk].
    exists data. auto.
Qed.

(** What [upload] does once its request is out and [res] has come back. *)
Lemma upload_after_request (self : UploadCare) (env : Env) (_input : string)
    (store : int_or_str) (metadata : option (gmap string pyval)) (expire : pyval)
    (kwargs : gmap string pyval) (w : World) (req : Request)
    (res : Response) (rest : list Response) :
  sends_first (upload self env _input store metadata expire kwargs) w req ->
  replies w = res :: rest ->
  upload self env _input store metadata expire kwargs w
  = (res_json ← lift (_check_response self res);
     '(fname, _uuid) ←
       upload_outcome self (match fs env _input with Some _ => false | None => true end)
         (path_name _input) res_json;
     mret (cdn_url env _uuid fname))
      {| replies := rest; trace := trace w ++ [Sent req] |}.
Proof.
  intros Hsend Hw.
  pose proof (upload_sends_past_precondition _ _ _ _ _ _ _ _ _ Hsend) as Hpre.
  apply upload_request in Hsend
    as [(content & data & Hfs & Hsig & ->)|(data & Hfs & Hhttp & Hsig & ->)].
  - unfold upload. rewrite Hpre.
    unfold mbind, M_bind, lift, _input_identity.
    rewrite Hfs. cbn [negb]. unfold open_rb. rewrite Hfs, Hsig.
    unfold requests_post. rewrite Hw. reflexivity.
  - unfold upload. rewrite Hpre.
    unfold mbind, M_bind, lift, _input_identity.
    rewrite Hfs, Hhttp. cbn [negb]. unfold mret, M_ret. rewrite Hsig.
    unfold requests_post. rewrite Hw. reflexivity.
Qed.

(** X1. When the [expire] precondition lets the call through, an input that
    names nothing on disk and does not start with [http] makes [upload]
    raise [ValueError]; no request is sent and no reply is read. *)
Theorem upload_refuses_what_is_neither_file_nor_url (self : UploadCare) (env : Env)
    (_input : string) (store : int_or_str) (metadata : option (gmap string pyval))
    (expire : pyval) (kwargs : gmap string pyval) (w : World) :
  py_truthy (secret_key self) && negb (py_truthy expire) = false ->
  fs env _input = None ->
  String.prefix "http" _input = false ->
  upload self env _input store metadata expire kwargs w
  = (Raise (ValueError "Input is neither an existing file or a valid URL!"), w).
Proof.
  intros Hpre Hfs Hhttp. unfold upload. rewrite Hpre.
  unfold mbind, M_bind, lift, _input_identity. rewrite Hfs, Hhttp. reflexivity.
Qed.

Lemma upload_refuses_what_is_neither_file_nor_url_witness :
  upload sample_client sample_env "notes.txt" (AStr "auto") None PNone ∅
    (sample_world [sample_file_reply])
  = (Raise (ValueError "Input is neither an existing file or a valid URL!"),
     sample_world [sample_file_reply]).
Proof.
  apply upload_refuses_what_is_neither_file_nor_url; reflexivity.
Defined.

(** X2. A path that exists but is a directory passes [_input_identity] as a
    local file, and [upload] then fails to open it, before any request:
    [IsADirectoryError], or [FileNotFoundError] when the path is the empty
    text, which [Path] takes for the current directory and [open] for no
    file at all. *)
Theorem upload_of_a_directory_raises (self : UploadCare) (env : Env)
    (_input : string) (store : int_or_str) (metadata : option (gmap string pyval))
    (expire : pyval) (kwargs : gmap string pyval) (w : World) :
  py_truthy (secret_key self) && negb (py_truthy expire) = false ->
  fs env _input = Some Directory ->
  (_input <> "" ->
   upload self env _input store metadata expire kwargs w = (Raise IsADirectoryError, w))
  /\ (_input = "" ->
      upload self env _input store metadata expire kwargs w = (Raise FileNotFoundError, w)).
Proof.
  intros Hpre Hfs. unfold upload. rewrite Hpre.
  unfold mbind, M_bind, lift, _input_identity. rewrite Hfs. cbn [negb].
  unfold open_rb. rewrite Hfs.
  destruct (String.eqb_spec _input "") as [Hempty|Hfull].
  - split; [contradiction | reflexivity].
  - split; [reflexivity | contradiction].
Qed.

Lemma upload_of_a_directory_raises_witness :
  upload sample_client sample_env_with_directory "photos" (AStr "auto") None PNone ∅
    (sample_world [sample_file_reply])
  = (Raise IsADirectoryError, sample_world [sample_file_reply])
  /\ upload sample_client sample_env_with_directory "" (AStr "auto") None PNone ∅
       (sample_world [sample_file_reply])
     = (Raise FileNotFoundError, sample_world [sample_file_reply]).
Proof.
  split.
  - apply (upload_of_a_directory_raises sample_client sample_env_with_directory "photos");
      [reflexivity | reflexivity | discriminate].
  - apply (upload_of_a_directory_raises sample_client sample_env_with_directory "");
      reflexivity.
Defined.

(** ** The fields of the requests *)

Lemma append_bracket_inj (s t : string) : s ++ "]" = t ++ "]" -> s = t.
Proof.
  revert t. induction s as [|c s IH]; intros [|d t] H; simpl in H.
  - reflexivity.
  - injection H as _ H. destruct t; discriminate H.
  - injection H as _ H. destruct s; discriminate H.
  - injection H as -> H. f_equal. apply IH. exact H.
Qed.

Lemma metadata_field_inj (j j' : string) :
  metadata_field j = metadata_field j' -> j = j'.
Proof.
  unfold metadata_field. intros H. simpl in H.
  injection H as H. now apply append_bracket_inj.
Qed.

Lemma str_int_inj (n n' : Z) : str_int n = str_int n' -> n = n'.
Proof.
  intros H. pose proof (str_int_decimal n) as Hn.
  rewrite H, str_int_decimal in Hn. congruence.
Qed.

Lemma files_field_inj (n n' : nat) : files_field n = files_field n' -> n = n'.
Proof.
  unfold files_field. intros H. simpl in H. injection H as H.
  apply append_bracket_inj, str_int_inj in H. lia.
Qed.

Lemma add_metadata_lookup_entry (m : gmap string pyval) (data : gmap string pyval)
    (j : string) (v : pyval) :
  m !! j = Some v ->
  add_metadata (Some m) data !! metadata_field j = Some v.
Proof.
  intros Hj. unfold add_metadata.
  destruct (Nat.eqb (size m) 0) eqn:Hsize.
  { apply Nat.eqb_eq, map_size_empty_iff in Hsize. subst m.
    rewrite lookup_empty in Hj. discriminate. }
  cbn [negb]. revert j v Hj.
  apply (map_fold_weak_ind
           (fun r (m' : gmap string pyval) =>
              forall j v, m' !! j = Some v -> r !! metadata_field j = Some v)).
  - intros j v Hj. rewrite lookup_empty in Hj. discriminate.
  - intros i x m' r Hi IH j v Hj. rewrite dict_update_lookup.
    destruct (decide (i = j)) as [->|Hne].
    + rewrite lookup_insert_eq in Hj. injection Hj as ->.
      now rewrite lookup_singleton_eq.
    + rewrite lookup_insert_ne in Hj by exact Hne.
      rewrite lookup_singleton_ne; [now apply IH|].
      intros E. apply Hne. now apply metadata_field_inj.
Qed.

Lemma add_files_lookup_file (n : nat) (files : list pyval) (data : gmap string pyval)
    (i : nat) (file : pyval) :
  List.nth_error files i = Some file ->
  add_files n files data !! files_field (n + i) = Some file.
Proof.
  revert n data i. induction files as [|f rest IH]; intros n data i Hi.
  - destruct i; discriminate.
  - cbn [add_files]. destruct i as [|i].
    + injection Hi as ->. rewrite Nat.add_0_r.
      rewrite add_files_lookup_other.
      * rewrite dict_update_lookup. now rewrite lookup_singleton_eq.
      * intros k _ E. apply files_field_inj in E. lia.
    + replace (n + S i)%nat with (S n + i)%nat by lia. apply IH. exact Hi.
Qed.

Lemma upload_fields_fixed (self : UploadCare) (_input : string) (is_url : bool)
    (store : int_or_str) (metadata : option (gmap string pyval))
    (kwargs : gmap string pyval) :
  let pub_k := if is_url then "pub_key" else "UPLOADCARE_PUB_KEY" in
  let data := upload_fields self _input is_url store metadata kwargs in
  (kwargs !! pub_k = None -> data !! pub_k = Some (PStr (pub_key self)))
  /\ (kwargs !! "UPLOADCARE_STORE" = None ->
      data !! "UPLOADCARE_STORE" = Some (PStr (str_of store)))
  /\ data !! "source_url"
     = if is_url then Some (PStr _input) else kwargs !! "source_url".
Proof.
  intros pub_k data. unfold data, upload_fields.
  rewrite !add_metadata_lookup_other by (intros m j _ _ E; destruct is_url; discriminate E).
  destruct is_url; cbn [pub_k].
  - rewrite !dict_update_lookup.
    rewrite lookup_singleton_eq, !lookup_singleton_ne by discriminate.
    split; [|split; [|reflexivity]].
    + intros ->. rewrite lookup_insert_ne by discriminate. apply lookup_singleton_eq.
    + intros ->. apply lookup_insert_eq.
  - rewrite !dict_update_lookup.
    split; [|split].
    + intros ->. rewrite lookup_insert_ne by discriminate. apply lookup_singleton_eq.
    + intros ->. apply lookup_insert_eq.
    + destruct (kwargs !! "source_url"); [reflexivity|].
      rewrite lookup_insert_ne by discriminate. now rewrite lookup_singleton_ne.
Qed.

(** X3. The request [upload] sends for an existing file is a [POST] to
    [{api_url}/base/] carrying the file under its base name with its bytes
    and guessed type; unless the extra fields name them, [UPLOADCARE_PUB_KEY]
    is the public key and [UPLOADCARE_STORE] is [str(store)]; [source_url]
    is there only if an extra field gave it. *)
Theorem upload_of_a_file_posts_it_to_base (self : UploadCare) (env : Env)
    (_input : string) (store : int_or_str) (metadata : option (gmap string pyval))
    (expire : pyval) (kwargs : gmap string pyval) (w : World)
    (content : list byte) (req : Request) :
  fs env _input = Some (File content) ->
  sends_first (upload self env _input store metadata expire kwargs) w req ->
  req_method req = "POST"
  /\ req_url req = api_url self ++ "/base/"
  /\ req_files req
     = Some (path_name _input, content, guess_type env (path_name _input))
  /\ (kwargs !! "UPLOADCARE_PUB_KEY" = None ->
      req_data req !! "UPLOADCARE_PUB_KEY" = Some (PStr (pub_key self)))
  /\ (kwargs !! "UPLOADCARE_STORE" = None ->
      req_data req !! "UPLOADCARE_STORE" = Some (PStr (str_of store)))
  /\ req_data req !! "source_url" = kwargs !! "source_url".
Proof.
  intros Hfs Hsend.
  apply upload_request in Hsend
    as [(content' & data & Hfs' & Hsig & ->)|(data & Hfs' & _)];
    [|rewrite Hfs' in Hfs; discriminate].
  rewrite Hfs' in Hfs. injection Hfs as ->.
  destruct (upload_fields_fixed self _input false store metadata kwargs)
    as (Hpub & Hstore & Hsrc).
  cbn [req_method req_url req_files req_data].
  rewrite !(add_signature_lookup _ _ _ _ _ _ Hsig) by (intros _; split; discriminate).
  repeat match goal with |- _ /\ _ => split end; auto.
Qed.

Lemma upload_of_a_file_posts_it_to_base_witness :
  req_url (sample_upload_request ∅) = "https://upload.uploadcare.com/base/"
  /\ req_data (sample_upload_request ∅) !! "UPLOADCARE_PUB_KEY"
     = Some (PStr "demopublickey")
  /\ req_data (sample_upload_request ∅) !! "UPLOADCARE_STORE" = Some (PStr "auto")
  /\ req_data (sample_upload_request ∅) !! "source_url" = None.
Proof.
  destruct (upload_of_a_file_posts_it_to_base sample_client sample_env "photo.jpg"
              (AStr "auto") None PNone ∅ (sample_world [sample_file_reply])
              [xff; xd8; xff; xe0] (sample_upload_request ∅) eq_refl)
    as (_ & Hurl & _ & Hpub & Hstore & Hsrc).
  - exists []. vm_compute. reflexivity.
  - split; [exact Hurl|]. split; [exact (Hpub eq_refl)|].
    split; [exact (Hstore eq_refl) | exact Hsrc].
Defined.

(** X4. The request [upload] sends for an input that is no existing path
    is a [POST] to [{api_url}/from_url/] without a file; the input starts
    with [http]; [source_url] is always the input, whatever the extra
    fields say; unless the extra fields name them, [pub_key] is the public
    key and [UPLOADCARE_STORE] is [str(store)]. *)
Theorem upload_of_a_url_posts_it_to_from_url (self : UploadCare) (env : Env)
    (_input : string) (store : int_or_str) (metadata : option (gmap string pyval))
    (expire : pyval) (kwargs : gmap string pyval) (w : World) (req : Request) :
  fs env _input = None ->
  sends_first (upload self env _input store metadata expire kwargs) w req ->
  String.prefix "http" _input = true
  /\ req_method req = "POST"
  /\ req_url req = api_url self ++ "/from_url/"
  /\ req_files req = None
  /\ req_data req !! "source_url" = Some (PStr _input)
  /\ (kwargs !! "pub_key" = None ->
      req_data req !! "pub_key" = Some (PStr (pub_key self)))
  /\ (kwargs !! "UPLOADCARE_STORE" = None ->
      req_data req !! "UPLOADCARE_STORE" = Some (PStr (str_of store))).
Proof.
  intros Hfs Hsend.
  apply upload_request in Hsend
    as [(content' & data & Hfs' & _)|(data & _ & Hhttp & Hsig & ->)];
    [rewrite Hfs' in Hfs; discriminate|].
  destruct (upload_fields_fixed self _input true store metadata kwargs)
    as (Hpub & Hstore & Hsrc).
  cbn [req_method req_url req_files req_data].
  rewrite !(add_signature_lookup _ _ _ _ _ _ Hsig) by (intros _; split; discriminate).
  repeat match goal with |- _ /\ _ => split end; auto.
Qed.

Lemma upload_of_a_url_posts_it_to_from_url_witness :
  let kwargs : gmap string pyval := {["source_url" := PStr "http://elsewhere.test/"]} in
  req_url (sample_url_request None kwargs) = "https://upload.uploadcare.com/from_url/"
  /\ req_data (sample_url_request None kwargs) !! "source_url" = Some (PStr sample_url)
  /\ req_data (sample_url_request None kwargs) !! "pub_key"
     = Some (PStr "demopublickey").
Proof.
  intros kwargs.
  destruct (upload_of_a_url_posts_it_to_from_url sample_client sample_env sample_url
              (AStr "auto") None PNone kwargs (sample_world [sample_fetched_reply])
              (sample_url_request None kwargs) eq_refl)
    as (_ & _ & Hurl & _ & Hsrc & Hpub & _).
  - exists []. vm_compute. reflexivity.
  - split; [exact Hurl|]. split; [exact Hsrc | exact (Hpub eq_refl)].
Defined.

(** X5. Every entry [j: v] of [metadata] is sent as the field
    [metadata[j]] with the value [v], for a file and for a URL alike, also
    when an extra field bears that name. *)
Theorem upload_sends_each_metadata_entry (self : UploadCare) (env : Env)
    (_input : string) (store : int_or_str) (m : gmap string pyval)
    (expire : pyval) (kwargs : gmap string pyval) (w : World) (req : Request)
    (j : string) (v : pyval) :
  m !! j = Some v ->
  sends_first (upload self env _input store (Some m) expire kwargs) w req ->
  req_data req !! metadata_field j = Some v.
Proof.
  intros Hj Hsend.
  apply upload_first_request in Hsend as (is_url & _ & Hsig).
  rewrite (add_signature_lookup _ _ _ _ _ _ Hsig) by (intros _; split; discriminate).
  unfold upload_fields. now apply add_metadata_lookup_entry.
Qed.

Lemma upload_sends_each_metadata_entry_witness :
  req_data (sample_url_request (Some sample_metadata)
              {["metadata[subsystem]" := PStr "ignored"]})
    !! "metadata[subsystem]" = Some (PStr "uploader").
Proof.
  apply (upload_sends_each_metadata_entry sample_client sample_env sample_url
           (AStr "auto") sample_metadata PNone
           {["metadata[subsystem]" := PStr "ignored"]}
           (sample_world [sample_fetched_reply]) _ "subsystem" (PStr "uploader")
           eq_refl).
  exists []. vm_compute. reflexivity.
Defined.

Lemma create_group_request (self : UploadCare) (env : Env) (files : list pyval)
    (expire : pyval) (kwargs : gmap string pyval) (w : World) (req : Request) :
  sends_first (create_group self env files expire kwargs) w req ->
  exists data,
    add_signature self env expire (create_group_fields self files kwargs) = Return data
    /\ req = Build_Request "POST" (api_url self ++ "/group/") data None.
Proof.
  unfold create_group. destruct (_ && _).
  { intros H. destruct (sends_first_raise _ _ _ H). }
  intros H.
  apply sends_first_lift_bind in H as (data & Hdata & H).
  apply sends_first_post_bind in H; [|intros res; apply grows_lift].
  eauto.
Qed.

(** X15. The request [create_group] sends is a [POST] to
    [{api_url}/group/]; the file at index [n] is sent as the field
    [files[n]], whatever the extra fields say; [pub_key] is the public key
    unless an extra field names it. *)
Theorem create_group_sends_each_file (self : UploadCare) (env : Env)
    (files : list pyval) (expire : pyval) (kwargs : gmap string pyval)
    (w : World) (req : Request) :
  sends_first (create_group self env files expire kwargs) w req ->
  req_method req = "POST"
  /\ req_url req = api_url self ++ "/group/"
  /\ req_files req = None
  /\ (forall n file, List.nth_error files n = Some file ->
                     req_data req !! files_field n = Some file)
  /\ (kwargs !! "pub_key" = None ->
      req_data req !! "pub_key" = Some (PStr (pub_key self))).
Proof.
  intros Hsend. apply create_group_request in Hsend as (data & Hsig & ->).
  cbn [req_method req_url req_files req_data].
  split; [reflexivity|]. split; [reflexivity|]. split; [reflexivity|]. split.
  - intros n file Hn.
    rewrite (add_signature_lookup _ _ _ _ _ _ Hsig) by (intros _; split; discriminate).
    unfold create_group_fields. apply (add_files_lookup_file 0 files _ n file Hn).
  - intros Hk.
    rewrite (add_signature_lookup _ _ _ _ _ _ Hsig) by (intros _; split; discriminate).
    unfold create_group_fields. rewrite add_files_lookup_other by discriminate.
    rewrite dict_update_lookup, Hk. apply lookup_singleton_eq.
Qed.

Lemma create_group_sends_each_file_witness :
  let req := Build_Request "POST" "https://upload.uploadcare.com/group/"
               (create_group_fields sample_client [PStr "UUID123"; PStr "UUID456"] ∅)
               None in
  req_data req !! "files[1]" = Some (PStr "UUID456")
  /\ req_data req !! "pub_key" = Some (PStr "demopublickey").
Proof.
  intros req.
  destruct (create_group_sends_each_file sample_client sample_env
              [PStr "UUID123"; PStr "UUID456"] PNone ∅
              (sample_world [sample_file_reply]) req)
    as (_ & _ & _ & Hfiles & Hpub).
  - exists []. vm_compute. reflexivity.
  - split; [exact (Hfiles 1%nat (PStr "UUID456") eq_refl) | exact (Hpub eq_refl)].
Defined.

(** ** What [upload] makes of the reply *)

(** X6. When the reply to the request of [upload] has a status other than
    200, [upload] raises what [_check_response] raises ([MissingSecretKey]
    for the signature marker and no secret key, else [ConnectionError] with
    the body); that one request is all it has sent, and the later replies
    are left unread. *)
Theorem upload_raises_on_a_failed_reply (self : UploadCare) (env : Env)
    (_input : string) (store : int_or_str) (metadata : option (gmap string pyval))
    (expire : pyval) (kwargs : gmap string pyval) (w : World) (req : Request)
    (res : Response) (rest : list Response) :
  sends_first (upload self env _input store metadata expire kwargs) w req ->
  replies w = res :: rest ->
  status_code res <> 200 ->
  upload self env _input store metadata expire kwargs w
  = (Raise (if contains "`signature` is required" (text res)
               && negb (py_truthy (secret_key self))
            then MissingSecretKey
            else ConnectionError (text res)),
     {| replies := rest; trace := trace w ++ [Sent req] |}).
Proof.
  intros Hsend Hw Hcode.
  rewrite (upload_after_request _ _ _ _ _ _ _ _ _ _ _ Hsend Hw).
  unfold mbind, M_bind, lift, _check_response.
  destruct (Z.eqb_spec (status_code res) 200) as [E|_]; [contradiction|].
  cbn [negb]. destruct (_ && _); reflexivity.
Qed.

Lemma upload_raises_on_a_failed_reply_witness :
  sample_upload ∅ (sample_world [sample_refusal; sample_success])
  = (Raise (ConnectionError "pub_key is invalid."),
     {| replies := [sample_success]; trace := [Sent (sample_upload_request ∅)] |}).
Proof.
  apply (upload_raises_on_a_failed_reply sample_client sample_env "photo.jpg"
           (AStr "auto") None PNone ∅ (sample_world [sample_refusal; sample_success])
           (sample_upload_request ∅) sample_refusal [sample_success]);
    [exists []; vm_compute; reflexivity | reflexivity | discriminate].
Defined.

(** X7. For a URL, a reply of status 200 whose payload has no truthy
    [token] is taken as the file itself: [upload] returns the address made
    of its [uuid] and [filename] and sends nothing more. *)
Theorem upload_of_a_url_fetched_at_once (self : UploadCare) (env : Env)
    (_input : string) (store : int_or_str) (metadata : option (gmap string pyval))
    (expire : pyval) (kwargs : gmap string pyval) (w : World) (req : Request)
    (res : Response) (rest : list Response) (payload : gmap string pyval)
    (filename uuid : pyval) :
  fs env _input = None ->
  sends_first (upload self env _input store metadata expire kwargs) w req ->
  replies w = res :: rest ->
  status_code res = 200 ->
  json res = Some (PDict payload) ->
  py_truthy (default PNone (payload !! "token")) = false ->
  payload !! "filename" = Some filename ->
  payload !! "uuid" = Some uuid ->
  upload self env _input store metadata expire kwargs w
  = (Return (cdn_url env uuid filename),
     {| replies := rest; trace := trace w ++ [Sent req] |}).
Proof.
  intros Hfs Hsend Hw Hcode Hjson Htoken Hname Huuid.
  rewrite (upload_after_request _ _ _ _ _ _ _ _ _ _ _ Hsend Hw), Hfs.
  unfold mbind, M_bind, lift, _check_response. rewrite Hcode, Hjson.
  cbn [Z.eqb Pos.eqb negb]. unfold upload_outcome, mbind, M_bind, lift.
  cbn [negb py_get py_getitem]. rewrite Htoken, Hname, Huuid. reflexivity.
Qed.

Lemma upload_of_a_url_fetched_at_once_witness :
  sample_url_upload None ∅ (sample_world [sample_fetched_reply; sample_success])
  = (Return "https://ucarecdn.com/UUID456/pic.png",
     {| replies := [sample_success];
        trace := [Sent (sample_url_request None ∅)] |}).
Proof.
  refine (upload_of_a_url_fetched_at_once sample_client sample_env sample_url
            (AStr "auto") None PNone ∅
            (sample_world [sample_fetched_reply; sample_success])
            (sample_url_request None ∅) sample_fetched_reply [sample_success]
            _ (PStr "pic.png") (PStr "UUID456") eq_refl _ eq_refl eq_refl eq_refl
            eq_refl eq_refl eq_refl).
  exists []. vm_compute. reflexivity.
Defined.

(** X8. For a URL, a reply of status 200 whose payload has a truthy
    [token] makes [upload] poll with that token; after the replies that
    settle nothing, each followed by a sleep, the reply of status [success]
    gives the [uuid] and [filename] of the address returned. *)
Theorem upload_of_a_url_polls_until_fetched (self : UploadCare) (env : Env)
    (_input : string) (store : int_or_str) (metadata : option (gmap string pyval))
    (expire : pyval) (kwargs : gmap string pyval) (w : World) (req : Request)
    (res : Response) (payload : gmap string pyval) (token : pyval)
    (pre : list Response) (final : Response) (rest : list Response)
    (d : gmap string pyval) (filename uuid : pyval) :
  fs env _input = None ->
  sends_first (upload self env _input store metadata expire kwargs) w req ->
  replies w = res :: pre ++ final :: rest ->
  status_code res = 200 ->
  json res = Some (PDict payload) ->
  payload !! "token" = Some token ->
  py_truthy token = true ->
  Forall (fun r => keeps_polling r = true) pre ->
  json final = Some (PDict d) ->
  d !! "status" = Some (PStr "success") ->
  d !! "filename" = Some filename ->
  d !! "uuid" = Some uuid ->
  upload self env _input store metadata expire kwargs w
  = (Return (cdn_url env uuid filename),
     {| replies := rest;
        trace := trace w ++ Sent req
                   :: fruitless_polls (List.length pre) (poll_request self token)
                   ++ [Sent (poll_request self token)] |}).
Proof.
  intros Hfs Hsend Hw Hcode Hjson Htoken Htruthy Hpre Hfinal Hstatus Hname Huuid.
  rewrite (upload_after_request _ _ _ _ _ _ _ _ _ _ _ Hsend Hw), Hfs.
  unfold mbind, M_bind, lift, _check_response. rewrite Hcode, Hjson.
  cbn [Z.eqb Pos.eqb negb]. unfold upload_outcome, mbind, M_bind, lift.
  cbn [negb py_get py_getitem]. rewrite Htoken.
  change (default PNone (Some token)) with token. rewrite Htruthy.
  unfold check_status, mbind, M_bind, lift. cbn [replies trace].
  rewrite (check_status_poll_fruitless _ _ pre (final :: rest) _ Hpre).
  cbn [check_status_poll]. rewrite Hfinal. cbn [py_getitem]. rewrite Hstatus.
  cbn [py_eq_str String.eqb Ascii.eqb Bool.eqb andb]. rewrite Hfinal.
  cbn [py_getitem]. rewrite Hname, Huuid.
  unfold poll_request. rewrite <- !app_assoc. reflexivity.
Qed.

Lemma upload_of_a_url_polls_until_fetched_witness :
  let poll := poll_request sample_client (PStr "T1") in
  sample_url_upload None ∅
    (sample_world [sample_token_reply; sample_pending; sample_poll_success])
  = (Return "https://ucarecdn.com/UUID456/pic.png",
     {| replies := [];
        trace := [Sent (sample_url_request None ∅); Sent poll; Slept (1 # 2);
                  Sent poll] |}).
Proof.
  intros poll.
  refine (upload_of_a_url_polls_until_fetched sample_client sample_env sample_url
            (AStr "auto") None PNone ∅
            (sample_world [sample_token_reply; sample_pending; sample_poll_success])
            (sample_url_request None ∅) sample_token_reply _ (PStr "T1")
            [sample_pending] sample_poll_success [] _ (PStr "pic.png") (PStr "UUID456")
            eq_refl _ eq_refl eq_refl eq_refl eq_refl eq_refl _ eq_refl eq_refl
            eq_refl eq_refl).
  - exists [Sent poll; Slept (1 # 2); Sent poll]. vm_compute. reflexivity.
  - repeat constructor.
Defined.

Lemma upload_unanswered (self : UploadCare) (env : Env) (_input : string)
    (store : int_or_str) (metadata : option (gmap string pyval)) (expire : pyval)
    (kwargs : gmap string pyval) (w : World) (req : Request) :
  sends_first (upload self env _input store metadata expire kwargs) w req ->
  replies w = [] ->
  upload self env _input store metadata expire kwargs w
  = (Starved, {| replies := []; trace := trace w ++ [Sent req] |}).
Proof.
  intros Hsend Hw.
  pose proof (upload_sends_past_precondition _ _ _ _ _ _ _ _ _ Hsend) as Hpre.
  apply upload_request in Hsend
    as [(content & data & Hfs & Hsig & ->)|(data & Hfs & Hhttp & Hsig & ->)].
  - unfold upload. rewrite Hpre.
    unfold mbind, M_bind, lift, _input_identity.
    rewrite Hfs. cbn [negb]. unfold open_rb. rewrite Hfs, Hsig.
    unfold requests_post. rewrite Hw. reflexivity.
  - unfold upload. rewrite Hpre.
    unfold mbind, M_bind, lift, _input_identity.
    rewrite Hfs, Hhttp. cbn [negb]. unfold mret, M_ret. rewrite Hsig.
    unfold requests_post. rewrite Hw. reflexivity.
Qed.

(** X9. For an existing file, [upload] sends one request and reads at most
    one reply, whatever the reply holds: it never polls. *)
Theorem upload_of_a_file_asks_once (self : UploadCare) (env : Env)
    (_input : string) (store : int_or_str) (metadata : option (gmap string pyval))
    (expire : pyval) (kwargs : gmap string pyval) (w : World)
    (content : list byte) (req : Request) :
  fs env _input = Some (File content) ->
  sends_first (upload self env _input store metadata expire kwargs) w req ->
  trace (snd (upload self env _input store metadata expire kwargs w))
  = (trace w ++ [Sent req])%list
  /\ replies (snd (upload self env _input store metadata expire kwargs w))
     = List.tl (replies w).
Proof.
  intros Hfs Hsend. destruct (replies w) as [|res rest] eqn:Hw.
  - rewrite (upload_unanswered _ _ _ _ _ _ _ _ _ Hsend Hw). auto.
  - rewrite (upload_after_request _ _ _ _ _ _ _ _ _ _ _ Hsend Hw), Hfs.
    unfold mbind, M_bind, lift.
    destruct (_check_response self res) as [res_json| |]; cbn [snd]; auto.
    unfold upload_outcome, mbind, M_bind, lift. cbn [negb].
    destruct (py_getitem res_json "file"); cbn [snd]; auto.
Qed.

Lemma upload_of_a_file_asks_once_witness :
  trace (snd (sample_upload ∅ (sample_world [sample_token_reply; sample_success])))
  = [Sent (sample_upload_request ∅)]
  /\ replies (snd (sample_upload ∅ (sample_world [sample_token_reply; sample_success])))
     = [sample_success].
Proof.
  apply (upload_of_a_file_asks_once sample_client sample_env "photo.jpg" (AStr "auto")
           None PNone ∅ (sample_world [sample_token_reply; sample_success])
           [xff; xd8; xff; xe0] (sample_upload_request ∅) eq_refl).
  exists []. vm_compute. reflexivity.
Defined.

(** ** More on the expiry *)

Lemma int_of_float_opp (t : Q) : int_of_float (- t) = - int_of_float t.
Proof. destruct t as [n d]. unfold int_of_float. simpl. apply Z.quot_opp_l. lia. Qed.

Lemma int_of_float_within_one (t : Q) :
  (t - 1 < inject_Z (int_of_float t))%Q /\ (inject_Z (int_of_float t) < t + 1)%Q.
Proof.
  destruct (Qlt_le_dec t 0) as [Hneg|Hpos].
  - assert (Hpos : (0 <= - t)%Q) by lra.
    destruct (int_of_float_floor (- t) Hpos) as [Hle Hlt].
    rewrite int_of_float_opp in Hle, Hlt.
    rewrite inject_Z_plus in Hlt. rewrite inject_Z_opp in Hle, Hlt.
    change (inject_Z 1) with 1%Q in Hlt. split; lra.
  - destruct (int_of_float_floor t Hpos) as [Hle Hlt].
    rewrite inject_Z_plus in Hlt. change (inject_Z 1) with 1%Q in Hlt. split; lra.
Qed.

(** X10. What an expiry that passes the test of line 84 is.  From a float:
    the float cut to whole seconds, where the float is not before
    [time.time()] and the result is later than [time.time() - 1], cutting
    taking off less than a second.  From text: the whole seconds of the
    parsed date, not before [time.time()].  From an [int]: that [int]; up
    to magnitude [2 ^ 53] it is not before [time.time()], and beyond that
    it is before [time.time()] by its [2 ^ 53]th part at most, which is as
    far as [float] rounds it up. *)
Theorem expire_seconds_is_within_a_second_of_now (env : Env) (expire : float_int_str)
    (e : Z) :
  expire_seconds env expire = Return e ->
  (forall q, expire = IsFloat q ->
     e = int_of_float q
     /\ (time_time env <= q)%Q
     /\ (time_time env - 1 < inject_Z e)%Q)
  /\ (forall s, expire = IsStr s ->
        exists d, dateparser_parse env s = Some d
                  /\ e = dt_seconds d
                  /\ (time_time env <= inject_Z e)%Q)
  /\ (forall z, expire = IsInt z ->
        e = z
        /\ (Z.abs z <= 2 ^ 53 -> (time_time env <= inject_Z z)%Q)
        /\ ((time_time env - inject_Z z) * inject_Z (2 ^ 53) <= inject_Z (Z.abs z))%Q).
Proof.
  unfold expire_seconds. intros H.
  destruct (expire_instant env expire) as [t| |] eqn:Ht; try discriminate.
  cbn [mbind outcome_bind] in H.
  destruct (negb (Qle_bool 0 (t - time_time env))) eqn:Hpast; [discriminate|].
  injection H as <-.
  assert (Hle : (time_time env <= t)%Q).
  { apply negb_false_iff, Qle_bool_iff in Hpast. lra. }
  split; [|split].
  - intros q ->. injection Ht as <-. cbn [whole_seconds].
    split; [reflexivity|]. split; [exact Hle|].
    destruct (int_of_float_within_one q). lra.
  - intros s ->. cbn [expire_instant] in Ht.
    destruct (dateparser_parse env s) as [d|]; [|discriminate].
    injection Ht as <-. exists d. cbn [whole_seconds].
    unfold mktime_timetuple. rewrite int_of_float_inject_Z.
    split; [reflexivity|]. split; [reflexivity | exact Hle].
  - intros z ->. cbn [expire_instant whole_seconds] in *.
    destruct (float_of_int z) as [f|] eqn:Hf; [|discriminate].
    injection Ht as ->.
    split; [reflexivity|]. split.
    + intros Hz. rewrite (float_of_int_small z Hz) in Hf. injection Hf as <-.
      exact Hle.
    + destruct (float_of_int_close z t Hf) as (m & -> & Hm).
      assert (Hm' : ((m - z) * 2 ^ 53 <= Z.abs z)%Z) by lia.
      unfold Z.sub in Hm'.
      rewrite Zle_Qle, inject_Z_mult, inject_Z_plus, inject_Z_opp in Hm'.
      assert (Hc : (0 <= inject_Z (2 ^ 53))%Q).
      { change 0%Q with (inject_Z 0). rewrite <- Zle_Qle. discriminate. }
      apply Qle_trans with (y := ((inject_Z m + - inject_Z z) * inject_Z (2 ^ 53))%Q);
        [|exact Hm'].
      apply Qmult_le_compat_r; [lra | exact Hc].
Qed.

Lemma expire_seconds_is_within_a_second_of_now_witness :
  (time_time sample_env - 1 < inject_Z 1700000000)%Q
  /\ ((inject_Z (2 ^ 53 + 4) - inject_Z (2 ^ 53 + 3)) * inject_Z (2 ^ 53)
      <= inject_Z (Z.abs (2 ^ 53 + 3)))%Q.
Proof.
  split.
  - exact (proj2 (proj2 (proj1 (expire_seconds_is_within_a_second_of_now sample_env
                    (IsFloat (17000000009 # 10)) 1700000000 eq_refl) _ eq_refl))).
  - exact (proj2 (proj2 (proj2 (proj2
             (expire_seconds_is_within_a_second_of_now
                (sample_env_at (inject_Z (2 ^ 53 + 4))) (IsInt (2 ^ 53 + 3))
                (2 ^ 53 + 3) eq_refl)) _ eq_refl))).
Defined.

(** X11. The order of the checks of [_secure_expire_signature]: an [expire]
    that is no float, int or text raises [ValueError] whatever the key;
    then a missing secret key raises [MissingSecretKey] whatever the value;
    then text that does not parse raises [InvalidDatetimeString], and an
    [int] (or [bool]) that [float] does not take raises [OverflowError];
    then an instant, taken as a float, that is before [time.time()] raises
    [ValueError]. *)
Theorem secure_expire_signature_error_order (self : UploadCare) (env : Env)
    (expire : pyval) :
  (as_float_int_str expire = None ->
   _secure_expire_signature self env expire
   = Raise (ValueError
              ("`expire` value must be a float or a string representing date "
               ++ "and/or time in a recognizably valid format.")))
  /\ (forall x, as_float_int_str expire = Some x ->
        py_truthy (secret_key self) = false ->
        _secure_expire_signature self env expire = Raise MissingSecretKey)
  /\ (forall s, expire = PStr s ->
        py_truthy (secret_key self) = true ->
        dateparser_parse env s = None ->
        _secure_expire_signature self env expire = Raise (InvalidDatetimeString PNone))
  /\ (forall z, as_float_int_str expire = Some (IsInt z) ->
        py_truthy (secret_key self) = true ->
        2 ^ 1024 - 2 ^ 970 <= Z.abs z ->
        _secure_expire_signature self env expire = Raise OverflowError)
  /\ (forall x t, as_float_int_str expire = Some x ->
        py_truthy (secret_key self) = true ->
        expire_instant env x = Return t ->
        (t < time_time env)%Q ->
        _secure_expire_signature self env expire
        = Raise (ValueError "Expire timestamp cannot be in the past!")).
Proof.
  unfold _secure_expire_signature, secure_expire_signature_in.
  split; [|split; [|split; [|split]]].
  - intros ->. reflexivity.
  - intros x -> ->. reflexivity.
  - intros s -> -> Hparse. cbn [as_float_int_str negb].
    unfold expire_seconds. cbn [expire_instant]. rewrite Hparse. reflexivity.
  - intros z -> -> Hz. cbn [negb].
    rewrite (expire_seconds_overflow env z (proj2 (float_of_int_overflows z) Hz)).
    reflexivity.
  - intros x t -> -> Ht Hlt. cbn [negb].
    rewrite (expire_seconds_past env x t Ht Hlt). reflexivity.
Qed.

(** X12. A client without a secret key that is given a truthy [expire] of
    an accepted type raises [MissingSecretKey] from [start_multipart],
    [create_group] and (for an input that is a file or a URL) [upload],
    before any request. *)
Theorem expire_without_secret_key_raises (self : UploadCare) (expire : pyval)
    (x : float_int_str) :
  py_truthy (secret_key self) = false ->
  py_truthy expire = true ->
  as_float_int_str expire = Some x ->
  (forall env _input store metadata kwargs w,
      fs env _input <> Some Directory ->
      (fs env _input = None -> String.prefix "http" _input = true) ->
      upload self env _input store metadata expire kwargs w
      = (Raise MissingSecretKey, w))
  /\ (forall env filename size kwargs w,
      start_multipart self env filename size expire kwargs w
      = (Raise MissingSecretKey, w))
  /\ (forall env files kwargs w,
      create_group self env files expire kwargs w = (Raise MissingSecretKey, w)).
Proof.
  intros Hkey Hexp Hx.
  assert (Hsig : forall env data,
             add_signature self env expire data = Raise MissingSecretKey).
  { intros env data. unfold add_signature. rewrite Hexp.
    rewrite (secure_expire_signature_missing_key self env expire x Hx Hkey).
    reflexivity. }
  split; [|split].
  - intros env _input store metadata kwargs w Hdir Hurl.
    unfold upload. rewrite Hkey. cbn [andb].
    unfold mbind, M_bind, lift, _input_identity.
    destruct (fs env _input) as [[content|]|] eqn:Hfs.
    + cbn [negb]. unfold open_rb. rewrite Hfs, Hsig. reflexivity.
    + contradiction.
    + rewrite (Hurl eq_refl). cbn [negb]. unfold mret, M_ret. rewrite Hsig.
      reflexivity.
  - intros env filename size kwargs w. unfold start_multipart.
    rewrite Hkey. cbn [andb]. unfold mbind, M_bind, lift. rewrite Hsig. reflexivity.
  - intros env files kwargs w. unfold create_group.
    rewrite Hkey. cbn [andb]. unfold mbind, M_bind, lift. rewrite Hsig. reflexivity.
Qed.

Lemma expire_without_secret_key_raises_witness :
  let w := sample_world [sample_file_reply] in
  upload sample_client sample_env "photo.jpg" (AStr "auto") None (PInt 1700003600) ∅ w
  = (Raise MissingSecretKey, w)
  /\ start_multipart sample_client sample_env "big.bin" 20000000 (PStr "tomorrow") ∅ w
     = (Raise MissingSecretKey, w)
  /\ create_group sample_client sample_env [PStr "UUID123"] (PFloat (17000036005 # 10))
       ∅ w
     = (Raise MissingSecretKey, w).
Proof.
  intros w. split; [|split].
  - apply (proj1 (expire_without_secret_key_raises sample_client (PInt 1700003600)
                    (IsInt 1700003600) eq_refl eq_refl eq_refl));
      [discriminate | discriminate].
  - apply (proj1 (proj2 (expire_without_secret_key_raises sample_client
                           (PStr "tomorrow") (IsStr "tomorrow")
                           eq_refl eq_refl eq_refl))).
  - apply (proj2 (proj2 (expire_without_secret_key_raises sample_client
                           (PFloat (17000036005 # 10)) (IsFloat (17000036005 # 10))
                           eq_refl eq_refl eq_refl))).
Defined.

(** ** More on the polls *)

Lemma check_status_poll_shape (endpoint : string) (token : pyval)
    (rs : list Response) (tr : list event) :
  let request := Build_Request "POST" endpoint {["token" := token]} None in
  exists n : nat,
    (n <= List.length rs)%nat
    /\ trace (snd (check_status_poll endpoint token rs tr))
       = (tr ++ fruitless_polls n request ++ [Sent request])%list
    /\ replies (snd (check_status_poll endpoint token rs tr)) = List.skipn (S n) rs.
Proof.
  intros request. subst request. revert tr.
  set (request := Build_Request "POST" endpoint {["token" := token]} None).
  induction rs as [|r rest IH]; intros tr; cbn [check_status_poll]; fold request.
  - exists 0%nat. auto.
  - assert (Hstop : forall o : outcome Response,
               exists n : nat,
                 (n <= List.length (r :: rest))%nat
                 /\ trace (snd (o, {| replies := rest; trace := tr ++ [Sent request] |}))
                    = (tr ++ fruitless_polls n request ++ [Sent request])%list
                 /\ replies (snd (o, {| replies := rest; trace := tr ++ [Sent request] |}))
                    = List.skipn (S n) (r :: rest)).
    { intros o. exists 0%nat. cbn. split; [lia|]. auto. }
    destruct (json r) as [payload|]; [|apply Hstop].
    destruct (py_getitem payload "status") as [status| |]; try apply Hstop.
    destruct (py_eq_str status "success"); [apply Hstop|].
    destruct (_ || _); [apply Hstop|].
    cbn [trace]. destruct (IH ((tr ++ [Sent request]) ++ [Slept (1 # 2)])%list) as (n & Hn & Ht & Hr).
    exists (S n). split; [simpl; lia|]. split.
    + rewrite Ht. cbn [fruitless_polls]. rewrite <- !app_assoc. reflexivity.
    + rewrite Hr. reflexivity.
Qed.

(** X13. Whatever the replies, [check_status] only adds to the trace
    requests for the status of its token, with one sleep of half a second
    between two of them and none after the last; it reads one reply for
    each request answered. *)
Theorem check_status_sleeps_between_polls_only (self : UploadCare) (token : pyval)
    (w : World) :
  exists n : nat,
    (n <= List.length (replies w))%nat
    /\ trace (snd (check_status self token w))
       = (trace w ++ fruitless_polls n (poll_request self token)
            ++ [Sent (poll_request self token)])%list
    /\ replies (snd (check_status self token w)) = List.skipn (S n) (replies w).
Proof.
  destruct (check_status_poll_shape (api_url self ++ "/from_url/status/") token
              (replies w) (trace w)) as (n & Hn & Ht & Hr).
  exists n. split; [exact Hn|].
  unfold check_status, mbind, M_bind, lift, poll_request.
  destruct (check_status_poll _ token (replies w) (trace w)) as [[res| |] w'];
    cbn [snd] in *; auto.
  destruct (json res) as [payload|]; cbn [snd]; auto.
  destruct (py_getitem payload "filename"); cbn [snd]; auto.
  destruct (py_getitem payload "uuid"); cbn [snd]; auto.
Qed.

(** X14. After replies that settle nothing, a reply that is not JSON makes
    [check_status] raise [JSONDecodeError]; one without [status] raises
    [KeyError]; one of status [success] without [filename], or without
    [uuid], raises [KeyError] for that name.  The later replies are left
    unread. *)
Theorem check_status_raises_on_a_malformed_reply (self : UploadCare) (token : pyval)
    (pre : list Response) (r : Response) (rest : list Response) (tr : list event) :
  Forall (fun r => keeps_polling r = true) pre ->
  let w := {| replies := pre ++ r :: rest; trace := tr |} in
  let w' := {| replies := rest;
               trace := tr ++ fruitless_polls (List.length pre) (poll_request self token)
                           ++ [Sent (poll_request self token)] |} in
  (json r = None -> check_status self token w = (Raise JSONDecodeError, w'))
  /\ (forall d, json r = Some (PDict d) -> d !! "status" = None ->
        check_status self token w = (Raise (KeyError "status"), w'))
  /\ (forall d, json r = Some (PDict d) ->
        d !! "status" = Some (PStr "success") -> d !! "filename" = None ->
        check_status self token w = (Raise (KeyError "filename"), w'))
  /\ (forall d filename, json r = Some (PDict d) ->
        d !! "status" = Some (PStr "success") ->
        d !! "filename" = Some filename -> d !! "uuid" = None ->
        check_status self token w = (Raise (KeyError "uuid"), w')).
Proof.
  intros Hpre w w'. unfold check_status, mbind, M_bind, lift, w, w', poll_request.
  cbn [replies trace].
  rewrite (check_status_poll_fruitless _ _ pre (r :: rest) tr Hpre).
  cbn [check_status_poll]. rewrite <- !app_assoc.
  split; [|split; [|split]].
  - intros ->. reflexivity.
  - intros d -> Hs. cbn [py_getitem]. rewrite Hs. reflexivity.
  - intros d Hj Hs Hf. rewrite Hj. cbn [py_getitem]. rewrite Hs.
    cbn [py_eq_str String.eqb Ascii.eqb Bool.eqb andb]. rewrite Hj.
    cbn [py_getitem]. rewrite Hf. reflexivity.
  - intros d filename Hj Hs Hf Hu. rewrite Hj. cbn [py_getitem]. rewrite Hs.
    cbn [py_eq_str String.eqb Ascii.eqb Bool.eqb andb]. rewrite Hj.
    cbn [py_getitem]. rewrite Hf, Hu. reflexivity.
Qed.

Lemma check_status_raises_on_a_malformed_reply_witness :
  check_status sample_client (PStr "T1")
    (sample_world [sample_pending; sample_file_reply; sample_success])
  = (Raise (KeyError "status"),
     {| replies := [sample_success];
        trace := [Sent (poll_request sample_client (PStr "T1")); Slept (1 # 2);
                  Sent (poll_request sample_client (PStr "T1"))] |})
  /\ fst (check_status sample_client (PStr "T1") (sample_world [sample_refusal]))
     = Raise JSONDecodeError.
Proof.
  split.
  - refine (proj1 (proj2 (check_status_raises_on_a_malformed_reply sample_client
                            (PStr "T1") [sample_pending] sample_file_reply
                            [sample_success] [] _)) _ eq_refl eq_refl).
    repeat constructor.
  - refine (f_equal fst (proj1 (check_status_raises_on_a_malformed_reply sample_client
                                  (PStr "T1") [] sample_refusal [] [] _) eq_refl)).
    constructor.
Defined.

(** ** Secret keys that sign alike *)

Lemma block_key_of_a_long_key (key : list byte) :
  (Sha256.block_size < List.length key)%nat ->
  Hmac.block_key key = Hmac.block_key (Sha256.digest key).
Proof.
  intros Hlong. unfold Hmac.block_key.
  apply Nat.ltb_lt in Hlong. rewrite Hlong.
  rewrite !sha256_digest_length. reflexivity.
Qed.

Lemma block_key_of_a_padded_key (key : list byte) :
  (List.length key < Sha256.block_size)%nat ->
  Hmac.block_key (key ++ [x00]) = Hmac.block_key key.
Proof.
  intros Hshort. unfold Hmac.block_key, Sha256.block_size in *.
  assert (Hlen : List.length (key ++ [x00]) = S (List.length key)).
  { rewrite length_app. simpl. lia. }
  rewrite Hlen.
  destruct (Nat.ltb_spec 64 (S (List.length key))) as [H|_]; [lia|].
  destruct (Nat.ltb_spec 64 (List.length key)) as [H|_]; [lia|].
  cbv zeta. rewrite Hlen, <- app_assoc. f_equal.
  replace (64 - List.length key)%nat with (S (64 - S (List.length key)))%nat by lia.
  reflexivity.
Qed.

(** X20. A text key signs as the bytes of its UTF-8 form; a key of more
    than 64 bytes signs as its SHA-256 digest does; a key of fewer than 64
    bytes signs as the same key with a zero byte after it. *)
Theorem keys_that_sign_alike (expire : Z) :
  (forall k : string,
      generate_secure_signature (PStr k) expire
      = generate_secure_signature (PBytes (encode_utf8 k)) expire)
  /\ (forall k : list byte,
      (64 < List.length k)%nat ->
      generate_secure_signature (PBytes k) expire
      = generate_secure_signature (PBytes (Sha256.digest k)) expire)
  /\ (forall k : list byte,
      (List.length k < 64)%nat ->
      generate_secure_signature (PBytes (k ++ [x00])) expire
      = generate_secure_signature (PBytes k) expire).
Proof.
  unfold generate_secure_signature, Hmac.hexdigest, Hmac.digest.
  cbn [mbind outcome_bind]. split; [|split].
  - reflexivity.
  - intros k Hk. now rewrite (block_key_of_a_long_key k Hk).
  - intros k Hk. now rewrite (block_key_of_a_padded_key k Hk).
Qed.

(** ** The operations that take no [expire] *)

Lemma check_response_returns (self : UploadCare) (resp : Response) (payload : pyval) :
  _check_response self resp = Return payload
  <-> status_code resp = 200 /\ json resp = Some payload.
Proof.
  unfold _check_response.
  destruct (Z.eqb_spec (status_code resp) 200) as [E|E]; cbn [negb].
  - destruct (json resp) as [p|]; split.
    + intros [= ->]. auto.
    + intros [_ [= ->]]. reflexivity.
    + discriminate.
    + intros [_ [=]].
  - split.
    + destruct (_ && _); discriminate.
    + intros [E' _]. contradiction.
Qed.

(** X16. The request [start_multipart] sends is a [POST] to
    [{api_url}/multipart/start/]; [UPLOADCARE_PUB_KEY], [filename] and
    [size] are the client's and the arguments' unless an extra field names
    them; the extra fields are sent as given; the result is what
    [_check_response] makes of the first reply, after that one request. *)
Theorem start_multipart_sends_the_name_and_the_size (self : UploadCare) (env : Env)
    (filename : string) (size : Z) (expire : pyval) (kwargs : gmap string pyval)
    (w : World) (req : Request) :
  sends_first (start_multipart self env filename size expire kwargs) w req ->
  req_method req = "POST"
  /\ req_url req = api_url self ++ "/multipart/start/"
  /\ req_files req = None
  /\ (kwargs !! "UPLOADCARE_PUB_KEY" = None ->
      req_data req !! "UPLOADCARE_PUB_KEY" = Some (PStr (pub_key self)))
  /\ (kwargs !! "filename" = None -> req_data req !! "filename" = Some (PStr filename))
  /\ (kwargs !! "size" = None -> req_data req !! "size" = Some (PInt size))
  /\ (forall k v, kwargs !! k = Some v ->
        (py_truthy expire = true -> k <> "expire" /\ k <> "signature") ->
        req_data req !! k = Some v)
  /\ (forall res rest, replies w = res :: rest ->
        start_multipart self env filename size expire kwargs w
        = (_check_response self res,
           {| replies := rest; trace := trace w ++ [Sent req] |})).
Proof.
  unfold start_multipart. destruct (_ && _).
  { intros H. destruct (sends_first_raise _ _ _ H). }
  intros H.
  apply sends_first_lift_bind in H as (data & Hsig & H).
  apply sends_first_post_bind in H; [|intros res; apply grows_lift]. subst req.
  cbn [req_method req_url req_files req_data].
  repeat match goal with |- _ /\ _ => split end; try reflexivity.
  - intros Hk.
    rewrite (add_signature_lookup _ _ _ _ _ _ Hsig) by (intros _; split; discriminate).
    rewrite dict_update_lookup, Hk, !lookup_insert_ne by discriminate.
    apply lookup_singleton_eq.
  - intros Hk.
    rewrite (add_signature_lookup _ _ _ _ _ _ Hsig) by (intros _; split; discriminate).
    rewrite dict_update_lookup, Hk, lookup_insert_ne by discriminate.
    apply lookup_insert_eq.
  - intros Hk.
    rewrite (add_signature_lookup _ _ _ _ _ _ Hsig) by (intros _; split; discriminate).
    rewrite dict_update_lookup, Hk. apply lookup_insert_eq.
  - intros k v Hk Hne.
    rewrite (add_signature_lookup _ _ _ _ _ _ Hsig) by exact Hne.
    rewrite dict_update_lookup, Hk. reflexivity.
  - intros res rest Hw. unfold mbind, M_bind, lift. rewrite Hsig.
    unfold requests_post. rewrite Hw.
    destruct (_check_response self res); reflexivity.
Qed.

Lemma start_multipart_sends_the_name_and_the_size_witness :
  let data : gmap string pyval :=
    <["part_size" := PInt 10485760]>
      (<["size" := PInt 20000000]>
         (<["filename" := PStr "big.bin"]>
            {["UPLOADCARE_PUB_KEY" := PStr "demopublickey"]})) in
  let req := Build_Request "POST" "https://upload.uploadcare.com/multipart/start/"
               data None in
  start_multipart sample_client sample_env "big.bin" 20000000 PNone
    {["part_size" := PInt 10485760]} (sample_world [sample_refusal])
  = (Raise (ConnectionError "pub_key is invalid."),
     {| replies := []; trace := [Sent req] |}).
Proof.
  intros data req.
  destruct (start_multipart_sends_the_name_and_the_size sample_client sample_env
              "big.bin" 20000000 PNone {["part_size" := PInt 10485760]}
              (sample_world [sample_refusal]) req)
    as (_ & _ & _ & _ & _ & _ & _ & Hrun).
  - exists []. vm_compute. reflexivity.
  - exact (Hrun sample_refusal [] eq_refl).
Defined.

(** X17. [complete_multipart] and [group_info] ask for no [expire], with or
    without a secret key: each sends one request (a [POST] of the public key
    and the uuid, a [GET] of the public key and the group id) and returns a
    payload exactly when the reply has status 200 and parses to it. *)
Theorem complete_multipart_and_group_info_ask_once (self : UploadCare) (w : World)
    (res : Response) (rest : list Response) :
  replies w = res :: rest ->
  (forall uuid : pyval,
      let req := Build_Request "POST" (api_url self ++ "/multipart/complete/")
                   (<["uuid" := uuid]> {["UPLOADCARE_PUB_KEY" := PStr (pub_key self)]})
                   None in
      complete_multipart self uuid w
      = (_check_response self res,
         {| replies := rest; trace := trace w ++ [Sent req] |})
      /\ (forall payload,
            fst (complete_multipart self uuid w) = Return payload
            <-> status_code res = 200 /\ json res = Some payload))
  /\ (forall group_id : string,
      let req := Build_Request "GET" (api_url self ++ "/group/info/")
                   (<["group_id" := PStr group_id]> {["pub_key" := PStr (pub_key self)]})
                   None in
      group_info self group_id w
      = (_check_response self res,
         {| replies := rest; trace := trace w ++ [Sent req] |})
      /\ (forall payload,
            fst (group_info self group_id w) = Return payload
            <-> status_code res = 200 /\ json res = Some payload)).
Proof.
  intros Hw. split.
  - intros uuid req.
    assert (H : complete_multipart self uuid w
                = (_check_response self res,
                   {| replies := rest; trace := trace w ++ [Sent req] |})).
    { unfold complete_multipart, mbind, M_bind, lift, requests_post. rewrite Hw.
      destruct (_check_response self res); reflexivity. }
    split; [exact H|]. intros payload. rewrite H. apply check_response_returns.
  - intros group_id req.
    assert (H : group_info self group_id w
                = (_check_response self res,
                   {| replies := rest; trace := trace w ++ [Sent req] |})).
    { unfold group_info, mbind, M_bind, lift, requests_get. rewrite Hw.
      destruct (_check_response self res); reflexivity. }
    split; [exact H|]. intros payload. rewrite H. apply check_response_returns.
Qed.

Lemma complete_multipart_and_group_info_ask_once_witness :
  fst (complete_multipart sample_signing_client (PStr "UUID123")
         (sample_world [sample_file_reply]))
  = Return (PDict {["file" := PStr "UUID123"]})
  /\ fst (group_info sample_signing_client "GROUP~2" (sample_world [sample_refusal]))
     = Raise (ConnectionError "pub_key is invalid.").
Proof.
  split.
  - apply (proj2 (proj1 (complete_multipart_and_group_info_ask_once
                           sample_signing_client (sample_world [sample_file_reply])
                           sample_file_reply [] eq_refl) (PStr "UUID123"))).
    split; reflexivity.
  - rewrite (proj1 (proj2 (complete_multipart_and_group_info_ask_once
                             sample_signing_client (sample_world [sample_refusal])
                             sample_refusal [] eq_refl) "GROUP~2")).
    reflexivity.
Defined.

(** ** The parts of a path and the file id of [info] *)

Lemma append_String_assoc (cur : string) (c : ascii) (s : string) :
  (cur ++ String c "") ++ s = cur ++ String c s.
Proof.
  induction cur as [|d cur IH]; [reflexivity|].
  change (String d ((cur ++ String c "") ++ s) = String d (cur ++ String c s)).
  now rewrite IH.
Qed.

Lemma append_empty_r (s : string) : s ++ "" = s.
Proof.
  induction s as [|c s IH]; [reflexivity|].
  change (String c (s ++ "") = String c s). now rewrite IH.
Qed.

Lemma path_parts_single (cur s : string) :
  has_no_slash s = true -> path_parts cur s = [cur ++ s].
Proof.
  revert cur. induction s as [|c s IH]; intros cur H; cbn [path_parts].
  - now rewrite append_empty_r.
  - unfold has_no_slash in H. cbn [list_ascii_of_string forallb] in H.
    apply andb_true_iff in H as [Hc Hs]. apply negb_true_iff in Hc. rewrite Hc.
    rewrite (IH _ Hs). now rewrite append_String_assoc.
Qed.

Lemma path_parts_cons (cur s rest : string) :
  has_no_slash s = true ->
  path_parts cur (s ++ String "/" rest) = (cur ++ s) :: path_parts "" rest.
Proof.
  revert cur. induction s as [|c s IH]; intros cur H.
  - cbn. now rewrite append_empty_r.
  - unfold has_no_slash in H. cbn [list_ascii_of_string forallb] in H.
    apply andb_true_iff in H as [Hc Hs]. apply negb_true_iff in Hc.
    change (String c s ++ String "/" rest) with (String c (s ++ String "/" rest)).
    cbn [path_parts]. rewrite Hc.
    rewrite (IH _ Hs). now rewrite append_String_assoc.
Qed.

Lemma has_no_slash_append (s t : string) :
  has_no_slash s = true -> has_no_slash t = true -> has_no_slash (s ++ t) = true.
Proof.
  unfold has_no_slash. induction s as [|c s IH]; intros Hs Ht; [exact Ht|].
  change (String c s ++ t) with (String c (s ++ t)).
  cbn [list_ascii_of_string forallb] in *.
  apply andb_true_iff in Hs as [Hc Hs]. rewrite Hc. cbn [andb]. now apply IH.
Qed.

Lemma path_parts_no_slash (cur p : string) :
  has_no_slash cur = true ->
  List.Forall (fun part => has_no_slash part = true) (path_parts cur p).
Proof.
  revert cur. induction p as [|c p IH]; intros cur Hcur; cbn [path_parts].
  - constructor; [exact Hcur | constructor].
  - destruct (Ascii.eqb c "/") eqn:Hc.
    + constructor; [exact Hcur|]. now apply IH.
    + apply IH. apply has_no_slash_append; [exact Hcur|].
      unfold has_no_slash. cbn. now rewrite Hc.
Qed.

Lemma last_default_or_in {A} (l : list A) (d : A) :
  List.last l d = d \/ List.In (List.last l d) l.
Proof.
  induction l as [|x l IH]; [now left|].
  destruct l as [|y l]; [right; now left|].
  change (List.last (x :: y :: l) d) with (List.last (y :: l) d).
  destruct IH as [->|IH]; [now left | right; now right].
Qed.

Lemma path_name_is_one_part (p : string) :
  has_no_slash (path_name p) = true /\ path_name p <> ".".
Proof.
  unfold path_name.
  destruct (last_default_or_in
              (List.filter (fun part => negb (String.eqb part "" || String.eqb part "."))
                           (path_parts "" p)) "") as [->|Hin].
  - split; [reflexivity | discriminate].
  - apply List.filter_In in Hin as [Hin Hkeep]. split.
    + pose proof (path_parts_no_slash "" p eq_refl) as Hall.
      rewrite List.Forall_forall in Hall. now apply Hall.
    + intros E. rewrite E in Hkeep. discriminate.
Qed.

Lemma relative_parts_of_a_cdn_url (env : Env) (uuid fname : string) :
  has_no_slash uuid = true -> uuid <> "" -> uuid <> "." ->
  has_no_slash fname = true -> fname <> "" -> fname <> "." ->
  relative_parts (cdn_url env (PStr uuid) (PStr fname))
  = ["https:"; "ucarecdn.com"; uuid; fname].
Proof.
  intros Hu Hu1 Hu2 Hf Hf1 Hf2. unfold relative_parts, cdn_url. cbn [py_format].
  change ("https://ucarecdn.com/" ++ uuid ++ "/" ++ fname)
    with ("https:" ++ String "/" ("" ++ String "/" ("ucarecdn.com" ++ String "/"
            (uuid ++ String "/" fname)))).
  rewrite !path_parts_cons by first [assumption | reflexivity].
  rewrite (path_parts_single "" fname Hf).
  cbv [append]. cbn [List.filter String.eqb Ascii.eqb Bool.eqb andb orb negb].
  apply String.eqb_neq in Hu1, Hu2, Hf1, Hf2.
  rewrite Hu1, Hu2, Hf1, Hf2. reflexivity.
Qed.

(** X18. Given the address [https://ucarecdn.com/{uuid}/{name}] that
    [upload] returns, with a [uuid] and a [name] of one part each, [info]
    looks up the [uuid]. *)
Theorem info_finds_the_uuid_in_a_cdn_url (self : UploadCare) (env : Env)
    (json_dumps : pyval -> string) (uuid fname : string) (pretty : bool) :
  has_no_slash uuid = true -> uuid <> "" -> uuid <> "." ->
  (has_no_slash fname = true /\ fname <> "." \/ exists p, fname = path_name p) ->
  fname <> "" ->
  info self json_dumps (cdn_url env (PStr uuid) (PStr fname)) pretty
  = Some (info_lookup self json_dumps uuid pretty).
Proof.
  intros Hu Hu1 Hu2 Hf Hf1.
  assert (Hf' : has_no_slash fname = true /\ fname <> ".").
  { destruct Hf as [Hf|[p ->]]; [exact Hf | apply path_name_is_one_part]. }
  destruct Hf' as [Hf2 Hf3].
  unfold info, info_file_id.
  rewrite (relative_parts_of_a_cdn_url env uuid fname) by assumption.
  reflexivity.
Qed.

Lemma info_finds_the_uuid_in_a_cdn_url_witness :
  info sample_client sample_json_dumps "https://ucarecdn.com/UUID123/photo.jpg" false
  = Some (info_lookup sample_client sample_json_dumps "UUID123" false).
Proof.
  apply (info_finds_the_uuid_in_a_cdn_url sample_client sample_env sample_json_dumps
           "UUID123" "photo.jpg" false eq_refl);
    [discriminate | discriminate | right; exists "photo.jpg"; reflexivity | discriminate].
Defined.

(** X19. [info] takes an input that does not start with [http] for the
    file id itself; an input that starts with [http] and has no slash has
    no second part from the end ([IndexError], before any request).  The
    lookup is one [GET] of [file_id] and [pub_key] to [{api_url}/info/]; it
    returns the payload of a reply of status 200, as text when [pretty]. *)
Theorem info_takes_its_input_for_an_id_or_a_url (self : UploadCare)
    (json_dumps : pyval -> string) (_input : string) (pretty : bool) :
  (String.prefix "http" _input = false ->
   info self json_dumps _input pretty
   = Some (info_lookup self json_dumps _input pretty))
  /\ (String.prefix "http" _input = true -> has_no_slash _input = true ->
      info self json_dumps _input pretty = None)
  /\ (forall w res rest,
        replies w = res :: rest ->
        info_lookup self json_dumps _input pretty w
        = (match _check_response self res with
           | Return payload =>
               Return (if pretty then PStr (json_dumps payload) else payload)
           | Raise e => Raise e
           | Starved => Starved
           end,
           {| replies := rest;
              trace := trace w
                       ++ [Sent (Build_Request "GET" (api_url self ++ "/info/")
                                   (<["pub_key" := PStr (pub_key self)]>
                                      {["file_id" := PStr _input]}) None)] |})).
Proof.
  split; [|split].
  - intros H. unfold info, info_file_id. rewrite H. reflexivity.
  - intros H Hs. unfold info, info_file_id, relative_parts. rewrite H.
    rewrite (path_parts_single "" _input Hs). cbv [append]. cbn [List.filter].
    destruct (negb _); reflexivity.
  - intros w res rest Hw. unfold info_lookup, mbind, M_bind, lift, requests_get.
    rewrite Hw. destruct (_check_response self res); [|reflexivity..].
    destruct pretty; reflexivity.
Qed.

(** A CDN address that ends after the uuid has the host for its second
    part from the end; an id that starts with [http] has only one part. *)
Example info_file_id_edges :
  info_file_id "https://ucarecdn.com/UUID123/" = Some "ucarecdn.com"
  /\ info_file_id "UUID123" = Some "UUID123"
  /\ info_file_id "httpbin" = None.
Proof. repeat split. Qed.

(** The expiry sent can be earlier than [time.time()], by less than a
    second: half past, an [expire] of seven tenths past is cut to the hour. *)
Example expire_cut_below_now :
  let env := {| fs := fs sample_env; time_time := 17000000005 # 10;
                dateparser_parse := dateparser_parse sample_env;
                guess_type := guess_type sample_env; py_repr := py_repr sample_env |} in
  expire_seconds env (IsFloat (17000000007 # 10)) = Return 1700000000
  /\ (inject_Z 1700000000 < time_time env)%Q.
Proof. split; reflexivity. Qed.

(** Where [float] rounds.  With [time.time()] at [2 ^ 53 + 4], the [int]
    [2 ^ 53 + 3] lies a second before it and passes line 84, its float
    being [2 ^ 53 + 4]: the call goes on to line 88.  [2 ^ 53 + 1] becomes
    [2 ^ 53] and is refused.  An [int] past the floats raises
    [OverflowError] at line 84, whatever its sign. *)
Example expire_beyond_the_exact_floats :
  let env := sample_env_at (inject_Z (2 ^ 53 + 4)) in
  expire_seconds env (IsInt (2 ^ 53 + 3)) = Return (2 ^ 53 + 3)
  /\ _secure_expire_signature sample_signing_client env (PInt (2 ^ 53 + 3))
     = Raise (NameError "generate_secure_signature")
  /\ _secure_expire_signature sample_signing_client env (PInt (2 ^ 53 + 1))
     = Raise (ValueError "Expire timestamp cannot be in the past!")
  /\ _secure_expire_signature sample_signing_client sample_env (PInt (10 ^ 400))
     = Raise OverflowError
  /\ _secure_expire_signature sample_signing_client sample_env (PInt (- 10 ^ 400))
     = Raise OverflowError.
Proof. vm_compute. repeat split. Qed.
